(** * Job-market analytics: the aggregation layer of [analytics.py]

    A shallow embedding of [JobAnalytics] (src/analytics.py) over the [Job]
    table of src/models/job.py, and the properties of its operations.

    Part I holds the model: the Python and SQL primitives the module
    relies on, the table, the operations of [JobAnalytics] under their own
    names, and the vocabulary of the specification.  The operations are
    given over two kinds of numbers.  The first model computes in exact
    rationals; it carries the properties about order, grouping, filters
    and formatting (C3, C8, C9, C10).  The second model, the module
    [B64], computes in binary64 floats as Python and SQLite do; it
    carries the properties that say which number an operation reports
    (C1, C2, C4, C5, C6, C7), because a rounded float result need not be
    the rounded exact result, and because [round] raises on a float that
    is not finite.  Part II holds the properties of the first model,
    Part III those of the second.

    Modelling conventions.
    - The [jobs] table is a list of rows in storage order; a query is a
      list computation over it.  SQL's three-valued logic is kept: a
      predicate over a nullable column evaluates to [option bool], and
      [WHERE] keeps a row only when the predicate is [Some true].
    - In the exact model the Float columns and every Python float are
      rationals ([Q]), [round] is the exact round-half-to-even, and
      numeric results are compared with [==] ([Qeq]).
    - In [B64] they are the kernel's binary64 floats ([PrimFloat]): every
      sum, difference, product and quotient is rounded to the nearest
      float, [round(x)] is the round-half-to-even of the exact value of
      [x] and raises [OverflowError] on an infinity and [ValueError] on a
      NaN, and [round(x, 1)] is the float nearest to the decimal with one
      digit nearest to [x].  The summation loop of [sum] (it changed with
      CPython 3.12) and the aggregate [avg] of SQLite are parameters.
    - Python exceptions are explicit: a computation that can raise returns
      an [Exc] value, and a division raises [ZeroDivisionError] on a zero
      divisor.
    - Strings are [string]s of code points below 256; white space is
      Python's on that range, and case folding is the ASCII one that
      SQLite's [lower] and [LIKE] apply.
    - Where SQL leaves the order of rows open (no [ORDER BY], or ties in
      it), the model keeps the order of first occurrence in the table. *)

From Stdlib Require Import QArith Qround Qabs ZArith List String Ascii Bool.
From Stdlib Require Import Lia Lqa Sorted Permutation DecimalString.
From Stdlib Require PrimFloat FloatOps SpecFloat FloatAxioms.
Import ListNotations.

Set Implicit Arguments.

Open Scope Q_scope.

(* ================================================================== *)
(** * Part I: the model *)
(* ================================================================== *)

(** ** Python exceptions *)

Inductive PyError : Type :=
| ZeroDivisionError
| TypeError
| ValueError
| IndexError
| KeyError
| OverflowError.

Inductive Exc (A : Type) : Type :=
| Ok (a : A)
| Raise (e : PyError).

Arguments Ok {A} a.
Arguments Raise {A} e.

Definition bind {A B : Type} (m : Exc A) (k : A -> Exc B) : Exc B :=
  match m with
  | Ok a => k a
  | Raise e => Raise e
  end.

Notation "x <- m ;; k" := (bind m (fun x => k))
  (at level 61, m at next level, right associativity).

(** A list comprehension or [for] loop whose body can raise. *)
Fixpoint mapM {A B : Type} (f : A -> Exc B) (l : list A) : Exc (list B) :=
  match l with
  | [] => Ok []
  | a :: l' => b <- f a ;; bs <- mapM f l' ;; Ok (b :: bs)
  end.

(** A [for] loop that updates a state and whose body can raise. *)
Fixpoint foldM {S A : Type} (f : S -> A -> Exc S) (l : list A) (s : S)
  : Exc S :=
  match l with
  | [] => Ok s
  | a :: l' => s' <- f s a ;; foldM f l' s'
  end.

(** A [for] loop that appends at most one result per element. *)
Fixpoint collectM {A B : Type} (f : A -> Exc (option B)) (l : list A)
  : Exc (list B) :=
  match l with
  | [] => Ok []
  | a :: l' =>
      o <- f a ;;
      bs <- collectM f l' ;;
      Ok (match o with Some b => b :: bs | None => bs end)
  end.

(** ** Numbers *)

Module PyNum.

(** [len(xs)] as a rational. *)
Definition of_nat (n : nat) : Q := inject_Z (Z.of_nat n).

(** [sum(xs)]: left to right, from the integer 0. *)
Definition sum (xs : list Q) : Q := fold_left Qplus xs 0.

(** [a / b] on numbers. *)
Definition py_truediv (a b : Q) : Exc Q :=
  if Qeq_bool b 0 then Raise ZeroDivisionError else Ok (a / b).

(** [round(x)]: the nearest integer, a tie going to the even one. *)
Definition py_round (x : Q) : Z :=
  let f := Qfloor x in
  match Qcompare (x - inject_Z f) (1 # 2) with
  | Lt => f
  | Gt => (f + 1)%Z
  | Eq => if Z.even f then f else (f + 1)%Z
  end.

(** [round(x, 1)]: the nearest multiple of one tenth, ties to even. *)
Definition py_round1 (x : Q) : Q := inject_Z (py_round (x * 10)) / 10.

(** Truthiness of a float: [0.0] is false. *)
Definition truthy (x : Q) : bool := negb (Qeq_bool x 0).

(** [x > 0] *)
Definition is_pos (x : Q) : bool :=
  match Qcompare 0 x with Lt => true | _ => false end.

(** [x < y] as a boolean. *)
Definition Qltb (x y : Q) : bool :=
  match Qcompare x y with Lt => true | _ => false end.

(** [min(xs)] and [max(xs)]: the first smallest, respectively first
    largest, element; [ValueError] on an empty list. *)
Definition py_min (xs : list Q) : Exc Q :=
  match xs with
  | [] => Raise ValueError
  | x :: xs' => Ok (fold_left (fun m y => if Qltb y m then y else m) xs' x)
  end.

Definition py_max (xs : list Q) : Exc Q :=
  match xs with
  | [] => Raise ValueError
  | x :: xs' => Ok (fold_left (fun m y => if Qltb m y then y else m) xs' x)
  end.

(** [xs[i]] *)
Definition py_index {A : Type} (xs : list A) (i : nat) : Exc A :=
  match nth_error xs i with
  | Some x => Ok x
  | None => Raise IndexError
  end.

End PyNum.
Import PyNum.

(** ** Stable sorting

    [sorted] (Timsort) and [heapq.nlargest] with its index decoration are
    stable; a stable sort is determined by its input and its order, so
    insertion sort stands for both.  [before y x] says that [y] has to
    come strictly before [x]. *)

Section StableSort.
Variable A : Type.
Variable before : A -> A -> bool.

Fixpoint insert_sorted (x : A) (l : list A) : list A :=
  match l with
  | [] => [x]
  | y :: l' => if before y x then y :: insert_sorted x l' else x :: l
  end.

Definition stable_sort (l : list A) : list A :=
  fold_right insert_sorted [] l.

(** [a] may stand directly in front of [b]. *)
Definition in_order (a b : A) : Prop := before b a = false.
End StableSort.

(** [sorted(xs)] on numbers. *)
Definition sorted_asc (xs : list Q) : list Q :=
  stable_sort (fun y x => Qltb y x) xs.

(** [sorted(xs, key=k, reverse=True)] for a natural-number key. *)
Definition sorted_by_desc {A : Type} (k : A -> nat) (xs : list A) : list A :=
  stable_sort (fun y x => Nat.ltb (k x) (k y)) xs.

(** [sorted(xs, key=k, reverse=True)] for an integer key. *)
Definition sorted_by_desc_int {A : Type} (k : A -> Z) (xs : list A) : list A :=
  stable_sort (fun y x => Z.ltb (k x) (k y)) xs.

(** ** Strings *)

Module PyStr.

Open Scope string_scope.

(** [str.isspace] on the code points below 256: TAB, LF, VT, FF, CR, the
    four separators FS, GS, RS, US, the space, NEL (U+0085) and the
    no-break space (U+00A0). *)
Definition is_space (c : ascii) : bool :=
  let n := nat_of_ascii c in
  ((9 <=? n) && (n <=? 13) || (28 <=? n) && (n <=? 32)
   || (n =? 133) || (n =? 160))%nat.

Fixpoint lstrip (s : string) : string :=
  match s with
  | EmptyString => EmptyString
  | String c s' => if is_space c then lstrip s' else s
  end.

(** Drops the trailing white space: a character stays when it is not a
    space or something after it stays. *)
Fixpoint rstrip (s : string) : string :=
  match s with
  | EmptyString => EmptyString
  | String c s' =>
      match rstrip s' with
      | EmptyString => if is_space c then EmptyString else String c EmptyString
      | t => String c t
      end
  end.

(** [s.strip()] *)
Definition strip (s : string) : string := rstrip (lstrip s).

(** [s.split(sep)] for a one-character separator: never empty, and the
    empty string splits into one empty token. *)
Fixpoint split (sep : ascii) (s : string) : list string :=
  match s with
  | EmptyString => [EmptyString]
  | String c s' =>
      if Ascii.eqb c sep then EmptyString :: split sep s'
      else match split sep s' with
           | t :: ts => String c t :: ts
           | [] => [String c EmptyString]
           end
  end.

(** Truthiness of a string: only the empty one is false. *)
Definition nonempty (s : string) : bool :=
  match s with
  | EmptyString => false
  | String _ _ => true
  end.

(** SQL [lower()] on one character: ASCII letters only. *)
Definition lower (c : ascii) : ascii :=
  let n := nat_of_ascii c in
  if ((65 <=? n) && (n <=? 90))%nat then ascii_of_nat (n + 32) else c.

(** [lower(text) LIKE lower(pat)], which is how [ilike] is rendered: [%]
    stands for any run of characters, [_] for one character, there is no
    escape character, and a literal character is compared after case
    folding. *)
Fixpoint like (pat : string) : string -> bool :=
  match pat with
  | EmptyString => fun text => negb (nonempty text)
  | String p pat' =>
      if Ascii.eqb p "%" then
        fix any (text : string) : bool :=
          like pat' text ||
          match text with
          | EmptyString => false
          | String _ text' => any text'
          end
      else if Ascii.eqb p "_" then
        fun text =>
          match text with
          | EmptyString => false
          | String _ text' => like pat' text'
          end
      else
        fun text =>
          match text with
          | EmptyString => false
          | String c text' => Ascii.eqb (lower p) (lower c) && like pat' text'
          end
  end.

(** The f-string [f"%{s}%"]. *)
Definition wrap_percent (s : string) : string := "%" ++ s ++ "%".

(** [column.ilike(f"%{s}%")] on a non-null column value. *)
Definition ilike_contains (s text : string) : bool :=
  like (wrap_percent s) text.

End PyStr.

(** ** Number formatting *)

Module PyFormat.

Open Scope string_scope.

(** Walks the digits from the least significant one and puts a comma
    before every fourth; [k] digits still fit in the current group. *)
Fixpoint commas_rev (k : nat) (digits : list ascii) : list ascii :=
  match digits with
  | [] => []
  | c :: digits' =>
      match k with
      | O => "," % char :: c :: commas_rev 2 digits'
      | S k' => c :: commas_rev k' digits'
      end
  end.

Definition group_thousands (digits : string) : string :=
  string_of_list_ascii
    (rev (commas_rev 3 (rev (list_ascii_of_string digits)))).

(** The decimal digits of [|n|]. *)
Definition digits_of (n : Z) : string :=
  NilZero.string_of_uint (N.to_uint (Z.abs_N n)).

(** [f"{n:,}"] on an [int]. *)
Definition format_int_comma (n : Z) : string :=
  (if (n <? 0)%Z then "-" else "") ++ group_thousands (digits_of n).

(** [f"{x:,.0f}"]: no decimals, ties to even, and the sign of [x] is
    kept even when the digits round to zero. *)
Definition format_float_comma0 (x : Q) : string :=
  (if Qltb x 0 then "-" else "") ++ group_thousands (digits_of (py_round x)).

End PyFormat.

(** ** Dictionaries in insertion order *)

Module PyDict.

Definition t (V : Type) : Type := list (string * V).

Fixpoint get {V : Type} (k : string) (d : t V) : option V :=
  match d with
  | [] => None
  | (k', v) :: d' => if String.eqb k k' then Some v else get k d'
  end.

(** [d[k] = v]: an existing key keeps its place, a new one goes last. *)
Fixpoint set {V : Type} (k : string) (v : V) (d : t V) : t V :=
  match d with
  | [] => [(k, v)]
  | (k', v') :: d' =>
      if String.eqb k k' then (k, v) :: d' else (k', v') :: set k v d'
  end.

End PyDict.

(** [collections.Counter(xs)]: keys in order of first occurrence. *)
Definition Counter (xs : list string) : PyDict.t nat :=
  fold_left
    (fun c x =>
       PyDict.set x (S (match PyDict.get x c with Some n => n | None => O end)) c)
    xs [].

(** [counter.most_common(n)]: [heapq.nlargest(n, items, key=count)], that
    is the first [n] items of the stable sort by falling count, and
    nothing for [n <= 0]. *)
Definition most_common (n : Z) (c : PyDict.t nat) : list (string * nat) :=
  firstn (Z.to_nat n) (sorted_by_desc snd c).

(** ** The [jobs] table (models/job.py)

    The two timestamp columns are left out: no operation reads them. *)

Module Job.
Record t : Type := mk {
  id : Z;
  title : string;
  company : string;
  location : string;
  salary_min : option Q;
  salary_max : option Q;
  salary_text : option string;
  skills : option string;
  description : option string;
  url : option string;
  remote : option string
}.
End Job.

(** ** The SQL fragment the queries use *)

Module Sql.

(** [col IS NOT NULL] *)
Definition isnot_null {A : Type} (col : option A) : bool :=
  match col with
  | Some _ => true
  | None => false
  end.

(** [WHERE p]: a row stays only when [p] is true, not when it is NULL. *)
Definition holds (p : option bool) : bool :=
  match p with
  | Some true => true
  | _ => false
  end.

(** [NOT p] *)
Definition not3 (p : option bool) : option bool := option_map negb p.

(** [col ILIKE '%s%'] on a nullable column. *)
Definition ilike (col : option string) (s : string) : option bool :=
  option_map (PyStr.ilike_contains s) col.

(** [(salary_min + salary_max) / 2], NULL as soon as a bound is. *)
Definition midpoint (j : Job.t) : option Q :=
  match Job.salary_min j, Job.salary_max j with
  | Some a, Some b => Some ((a + b) / 2)
  | _, _ => None
  end.

(** The filter shared by every operation:
    [salary_min IS NOT NULL AND salary_max IS NOT NULL]. *)
Definition has_salary (j : Job.t) : bool :=
  isnot_null (Job.salary_min j) && isnot_null (Job.salary_max j).

(** The values an aggregate sees: it skips NULLs. *)
Fixpoint non_null {A : Type} (xs : list (option A)) : list A :=
  match xs with
  | [] => []
  | Some x :: xs' => x :: non_null xs'
  | None :: xs' => non_null xs'
  end.

(** [avg(e)], [min(e)], [max(e)]: NULL when no value is left. *)
Definition avg (xs : list (option Q)) : option Q :=
  match non_null xs with
  | [] => None
  | vs => Some (PyNum.sum vs / PyNum.of_nat (List.length vs))
  end.

Definition min (xs : list (option Q)) : option Q :=
  match non_null xs with
  | [] => None
  | v :: vs => Some (fold_left (fun m y => if Qltb y m then y else m) vs v)
  end.

Definition max (xs : list (option Q)) : option Q :=
  match non_null xs with
  | [] => None
  | v :: vs => Some (fold_left (fun m y => if Qltb m y then y else m) vs v)
  end.

(** The distinct values of a column, in order of first occurrence. *)
Fixpoint distinct {K : Type} (eqb : K -> K -> bool) (ks : list K) : list K :=
  match ks with
  | [] => []
  | k :: ks' => k :: filter (fun k' => negb (eqb k' k)) (distinct eqb ks')
  end.

(** [GROUP BY col]: each distinct value with its rows. *)
Definition group_by {K A : Type} (eqb : K -> K -> bool) (col : A -> K)
  (rows : list A) : list (K * list A) :=
  map (fun k => (k, filter (fun r => eqb (col r) k) rows))
      (distinct eqb (map col rows)).

(** Equality of a nullable text column as a grouping key: NULLs group
    together. *)
Definition opt_eqb (a b : option string) : bool :=
  match a, b with
  | Some x, Some y => String.eqb x y
  | None, None => true
  | _, _ => false
  end.

(** The order of [ORDER BY]: NULL is below every number. *)
Definition lt (a b : option Q) : bool :=
  match a, b with
  | None, Some _ => true
  | Some x, Some y => Qltb x y
  | _, None => false
  end.

(** [ORDER BY e DESC] *)
Definition order_by_desc {A : Type} (e : A -> option Q) (rows : list A)
  : list A :=
  stable_sort (fun y x => lt (e x) (e y)) rows.

(** [ORDER BY count(id) DESC] *)
Definition order_by_count_desc {A : Type} (e : A -> nat) (rows : list A)
  : list A :=
  stable_sort (fun y x => Nat.ltb (e x) (e y)) rows.

(** [LIMIT n]; SQLite reads a negative [n] as no limit. *)
Definition limit {A : Type} (n : Z) (rows : list A) : list A :=
  if (n <? 0)%Z then rows else firstn (Z.to_nat n) rows.

End Sql.

(** ** Result dictionaries *)

Module SalaryInsights.
Record t : Type := mk {
  count : nat;
  avg_salary : Z;
  min_salary : Q;
  max_salary : Q;
  median_salary : Q
}.
End SalaryInsights.

Module LocationSalary.
Record t : Type := mk {
  location : string;
  job_count : nat;
  avg_salary : Z
}.
End LocationSalary.

Module TopSkill.
Record t : Type := mk {
  skill : string;
  job_count : nat;
  avg_salary : Z;
  percentage : Q
}.
End TopSkill.

Module CompanyInsight.
Record t : Type := mk {
  company : string;
  job_count : nat;
  avg_salary : Z;
  salary_range : string
}.
End CompanyInsight.

Module RemoteTrend.
Record t : Type := mk {
  type : option string;
  job_count : nat;
  percentage : Q;
  avg_salary : Z
}.
End RemoteTrend.

Module SalaryComparison.
Record t : Type := mk {
  location : string;
  job_count : nat;
  avg_salary : Z;
  salary_range : string
}.
End SalaryComparison.

Module MarketSummary.
Record t : Type := mk {
  total_jobs : nat;
  avg_salary : Z;
  salary_range : string;
  top_skills : list string;
  highest_paying_location : string;
  remote_percentage : Q
}.
End MarketSummary.

(** ** [JobAnalytics] *)

Definition Store : Type := list Job.t.

(** [(job.salary_min + job.salary_max) / 2] in Python: [None] in a sum is
    a [TypeError]. *)
Definition py_midpoint (job : Job.t) : Exc Q :=
  match Job.salary_min job, Job.salary_max job with
  | Some a, Some b => Ok ((a + b) / 2)
  | _, _ => Raise TypeError
  end.

(** [round(avg_sal) if avg_sal else 0] *)
Definition round_or_zero (avg_sal : option Q) : Z :=
  match avg_sal with
  | Some x => if truthy x then py_round x else 0%Z
  | None => 0%Z
  end.

(** [get_total_jobs_count] *)
Definition get_total_jobs_count (db : Store) : nat := List.length db.

(** The query of [get_salary_insights]: the salary filter, then the two
    optional [ilike] filters, each applied only for a truthy argument. *)
Definition salary_query (db : Store) (location skill : option string)
  : list Job.t :=
  let query := filter Sql.has_salary db in
  let query :=
    match location with
    | Some l =>
        if PyStr.nonempty l
        then filter (fun j => Sql.holds (Sql.ilike (Some (Job.location j)) l))
                    query
        else query
    | None => query
    end in
  match skill with
  | Some s =>
      if PyStr.nonempty s
      then filter (fun j => Sql.holds (Sql.ilike (Job.skills j) s)) query
      else query
  | None => query
  end.

Definition get_salary_insights (db : Store) (location skill : option string)
  : Exc SalaryInsights.t :=
  let jobs := salary_query db location skill in
  match jobs with
  | [] => Ok (SalaryInsights.mk 0 0 0 0 0)
  | _ :: _ =>
      salaries <- mapM py_midpoint jobs ;;
      mean <- py_truediv (PyNum.sum salaries) (of_nat (List.length salaries)) ;;
      lo <- py_min salaries ;;
      hi <- py_max salaries ;;
      med <- py_index (sorted_asc salaries) (Nat.div (List.length salaries) 2) ;;
      Ok (SalaryInsights.mk (List.length jobs) (py_round mean) lo hi med)
  end.

Definition get_salary_by_location (db : Store) : list LocationSalary.t :=
  let avg_of (g : string * list Job.t) := Sql.avg (map Sql.midpoint (snd g)) in
  let query :=
    Sql.order_by_desc avg_of
      (Sql.group_by String.eqb Job.location (filter Sql.has_salary db)) in
  map (fun g =>
         LocationSalary.mk (fst g) (List.length (snd g))
                           (round_or_zero (avg_of g)))
      query.

(** One pass of the inner loop of [get_top_skills] for one token. *)
Definition add_skill (avg_salary : Q)
  (st : list string * PyDict.t (list Q)) (skill : string)
  : Exc (list string * PyDict.t (list Q)) :=
  if PyStr.nonempty skill then
    let (all_skills, skill_salaries) := st in
    let skill_salaries :=
      match PyDict.get skill skill_salaries with
      | None => PyDict.set skill [] skill_salaries
      | Some _ => skill_salaries
      end in
    match PyDict.get skill skill_salaries with
    | Some l =>
        Ok (all_skills ++ [skill],
            PyDict.set skill (l ++ [avg_salary]) skill_salaries)
    | None => Raise KeyError
    end
  else Ok st.

(** One pass of the outer loop for one job. *)
Definition scan_job (st : list string * PyDict.t (list Q)) (job : Job.t)
  : Exc (list string * PyDict.t (list Q)) :=
  match Job.skills job with
  | Some s =>
      if PyStr.nonempty s then
        let job_skills := map PyStr.strip (PyStr.split "," s) in
        avg_salary <- py_midpoint job ;;
        foldM (add_skill avg_salary) job_skills st
      else Ok st
  | None => Ok st
  end.

(** The rows [get_top_skills] reads. *)
Definition skills_query (db : Store) : list Job.t :=
  filter (fun j => Sql.isnot_null (Job.skills j) && Sql.has_salary j) db.

Definition get_top_skills (db : Store) (limit : Z) : Exc (list TopSkill.t) :=
  let jobs := skills_query db in
  st <- foldM scan_job jobs ([], []) ;;
  let (all_skills, skill_salaries) := st in
  let skill_counts := Counter all_skills in
  collectM
    (fun item : string * nat =>
       let (skill, count) := item in
       match PyDict.get skill skill_salaries with
       | Some sal =>
           if (0 <? List.length sal)%nat then
             avg_salary <- py_truediv (PyNum.sum sal)
                                      (of_nat (List.length sal)) ;;
             share <- py_truediv (of_nat count) (of_nat (List.length jobs)) ;;
             Ok (Some (TopSkill.mk skill count (py_round avg_salary)
                                   (py_round1 (share * 100))))
           else Ok None
       | None => Ok None
       end)
    (most_common limit skill_counts).

(** [sum(case((remote == label, 1), else_=0))] over the rows of a group;
    a NULL label compares as not equal. *)
Definition count_remote (label : string) (rows : list Job.t) : nat :=
  List.length
    (filter (fun j => Sql.opt_eqb (Job.remote j) (Some label)) rows).

Definition get_company_insights (db : Store) (limit : Z)
  : list CompanyInsight.t :=
  let mids (g : string * list Job.t) := map Sql.midpoint (snd g) in
  let query :=
    Sql.limit limit
      (Sql.order_by_count_desc (fun g => List.length (snd g))
         (Sql.group_by String.eqb Job.company (filter Sql.has_salary db))) in
  map (fun g =>
         CompanyInsight.mk (fst g) (List.length (snd g))
           (round_or_zero (Sql.avg (mids g)))
           (match Sql.min (mids g), Sql.max (mids g) with
            | Some min_sal, Some max_sal =>
                if truthy min_sal && truthy max_sal
                then ("$" ++ PyFormat.format_int_comma (py_round min_sal)
                      ++ " - $" ++ PyFormat.format_int_comma (py_round max_sal))
                     % string
                else "N/A" % string
            | _, _ => "N/A" % string
            end))
      query.

Definition get_remote_work_trends (db : Store) : Exc (list RemoteTrend.t) :=
  let query :=
    Sql.group_by Sql.opt_eqb Job.remote (filter Sql.has_salary db) in
  let total_jobs := List.length db in
  results <-
    mapM (fun g : option string * list Job.t =>
            let count := List.length (snd g) in
            percentage <-
              (if (0 <? total_jobs)%nat
               then share <- py_truediv (of_nat count) (of_nat total_jobs) ;;
                    Ok (py_round1 (share * 100))
               else Ok 0) ;;
            Ok (RemoteTrend.mk (fst g) count percentage
                  (round_or_zero (Sql.avg (map Sql.midpoint (snd g))))))
         query ;;
  Ok (sorted_by_desc RemoteTrend.job_count results).

Definition get_salary_comparison (db : Store) (locations_list : list string)
  : Exc (list SalaryComparison.t) :=
  results <-
    collectM
      (fun location : string =>
         insights <- get_salary_insights db (Some location) None ;;
         Ok (if (0 <? SalaryInsights.count insights)%nat
             then Some (SalaryComparison.mk location
                          (SalaryInsights.count insights)
                          (SalaryInsights.avg_salary insights)
                          ("$" ++ PyFormat.format_float_comma0
                                    (SalaryInsights.min_salary insights)
                           ++ " - $" ++ PyFormat.format_float_comma0
                                          (SalaryInsights.max_salary insights))
                          % string)
             else None))
      locations_list ;;
  Ok (sorted_by_desc_int SalaryComparison.avg_salary results).

(** [next((item['percentage'] for item in trends if item['type'] ==
    'Remote'), 0)] *)
Fixpoint remote_share (trends : list RemoteTrend.t) : Q :=
  match trends with
  | [] => 0
  | item :: trends' =>
      if Sql.opt_eqb (RemoteTrend.type item) (Some "Remote" % string)
      then RemoteTrend.percentage item
      else remote_share trends'
  end.

Definition generate_market_summary (db : Store) : Exc MarketSummary.t :=
  let total_jobs := get_total_jobs_count db in
  overall_salary <- get_salary_insights db None None ;;
  top_skills <- get_top_skills db 5 ;;
  let top_locations := firstn 5 (get_salary_by_location db) in
  remote_trends <- get_remote_work_trends db ;;
  Ok (MarketSummary.mk total_jobs
        (SalaryInsights.avg_salary overall_salary)
        ("$" ++ PyFormat.format_float_comma0
                  (SalaryInsights.min_salary overall_salary)
         ++ " - $" ++ PyFormat.format_float_comma0
                        (SalaryInsights.max_salary overall_salary)) % string
        (map TopSkill.skill top_skills)
        (match top_locations with
         | e :: _ => LocationSalary.location e
         | [] => "N/A" % string
         end)
        (remote_share remote_trends)).

(** ** Vocabulary of the specification *)

(** Eligible record: both salary bounds are present. *)
Definition eligible (j : Job.t) : bool :=
  match Job.salary_min j, Job.salary_max j with
  | Some _, Some _ => true
  | _, _ => false
  end.

(** The midpoint salaries of the eligible records among [jobs]. *)
Definition midpoints (jobs : list Job.t) : list Q :=
  Sql.non_null (map Sql.midpoint jobs).

(** The arithmetic mean of a sample. *)
Definition mean (xs : list Q) : Q := PyNum.sum xs / of_nat (List.length xs).

(** The skill tokens of a record: split on commas, trimmed, empty ones
    dropped. *)
Definition tokens (j : Job.t) : list string :=
  match Job.skills j with
  | Some s => filter PyStr.nonempty (map PyStr.strip (PyStr.split "," s))
  | None => []
  end.


(** [s] starts [text], up to the case of ASCII letters. *)
Fixpoint prefix_ci (s text : string) : bool :=
  match s, text with
  | EmptyString, _ => true
  | String _ _, EmptyString => false
  | String a s', String b text' =>
      Ascii.eqb (PyStr.lower a) (PyStr.lower b) && prefix_ci s' text'
  end.

(** [s] is a substring of [text], up to the case of ASCII letters. *)
Fixpoint contains_ci (s text : string) : bool :=
  prefix_ci s text ||
  match text with
  | EmptyString => false
  | String _ text' => contains_ci s text'
  end.

(** No LIKE wildcard occurs in [s]. *)
Fixpoint wildcard_free (s : string) : bool :=
  match s with
  | EmptyString => true
  | String c s' =>
      negb (Ascii.eqb c "%") && negb (Ascii.eqb c "_") && wildcard_free s'
  end.

(** ** Loop invariants *)

(** [c] holds the counts of the elements of [p]. *)
Definition counts (p : list string) (c : PyDict.t nat) : Prop :=
  NoDup (map fst c) /\
  forall s, PyDict.get s c =
            match count_occ string_dec p s with
            | O => None
            | S n => Some (S n)
            end.

(** ** Data sets of the scenarios *)

(** A row with the given company, location, salary bounds, skills and
    remote label, the other columns being fixed. *)
Definition job (i : Z) (co loc : string) (lo hi : option Q)
  (sk rem : option string) : Job.t :=
  Job.mk i "Engineer" co loc lo hi None sk None None rem.

(** One company whose only record has both salary bounds at zero. *)
Definition zero_salary : Store :=
  [ job 1 "Acme" "Boston, MA" (Some 0) (Some 0) (Some "Python" % string) None ].

(** ** The operations over binary64 floats

    The Float columns hold IEEE 754 binary64 numbers, and Python computes
    on them in binary64: every sum, product and quotient is rounded to
    the nearest float, [round] raises on an infinity or a NaN, and
    [round(x, 1)] returns the float nearest to a decimal with one digit.
    [B64] holds the operations whose results depend on that arithmetic,
    under their own names, over the kernel's binary64 floats.  The
    operations read the same strings, dictionaries and SQL fragment as
    above. *)

Module B64.

Import PrimFloat FloatOps SpecFloat.

(** *** Floats *)

(** The rational a finite float stands for; an infinity and a NaN stand
    for none. *)
Definition exact (x : float) : option Q :=
  match Prim2SF x with
  | S754_zero _ => Some 0
  | S754_finite s m e =>
      Some (inject_Z (if s then Zneg m else Zpos m) * Qpower 2 e)
  | S754_infinity _ => None
  | S754_nan => None
  end.

(** An [int] as a quotient operand: the integer itself, not yet rounded. *)
Definition int_exact (n : Z) : spec_float :=
  match n with
  | Z0 => S754_zero false
  | Zpos p => S754_finite false p 0
  | Zneg p => S754_finite true p 0
  end.

(** [float(n)]: the float nearest to the integer, exact below 2^53. *)
Definition of_int (n : Z) : float :=
  SF2Prim (binary_normalize prec emax n 0 false).

(** The float nearest to [n / d]: the quotient of two integers rounded
    once.  It is the value of the decimal literal with digits [n] and
    denominator [d], and of [a / b] on two [int]s. *)
Definition ratio (n d : Z) : float :=
  SF2Prim (SFdiv prec emax (int_exact n) (int_exact d)).

(** [a / b] on two [int]s; the operands are counts of rows, far below
    the size at which the quotient would overflow. *)
Definition int_truediv (a b : Z) : Exc float :=
  if (b =? 0)%Z then Raise ZeroDivisionError else Ok (ratio a b).

(** [a / b] on two floats. *)
Definition py_truediv (a b : float) : Exc float :=
  if (b =? 0)%float then Raise ZeroDivisionError else Ok (a / b)%float.

(** [a / n] on a float and an [int]: [n] is converted, and the converted
    divisor is zero exactly when [n] is. *)
Definition div_int (a : float) (n : Z) : Exc float :=
  if (n =? 0)%Z then Raise ZeroDivisionError else Ok (a / of_int n)%float.

(** [round(x)]: the nearest integer to the exact value, a tie going to
    the even one; [OverflowError] on an infinity, [ValueError] on a
    NaN. *)
Definition py_round (x : float) : Exc Z :=
  match exact x with
  | Some q => Ok (PyNum.py_round q)
  | None => Raise (if is_nan x then ValueError else OverflowError)
  end.

(** [round(x, 1)]: the float nearest to [k / 10], where [k] is the
    nearest integer to ten times the exact value, ties to even; the sign
    of [x] is kept on a zero result, and an infinity, a NaN and a zero
    are returned as they are. *)
Definition py_round1 (x : float) : float :=
  match Prim2SF x with
  | S754_finite s m e =>
      match PyNum.py_round
              (inject_Z (if s then Zneg m else Zpos m) * Qpower 2 e * 10) with
      | Z0 => SF2Prim (S754_zero s)
      | k => ratio k 10
      end
  | _ => x
  end.

(** Truthiness of a float: only a zero is false. *)
Definition truthy (x : float) : bool := negb (x =? 0)%float.

(** [x > 0] *)
Definition is_pos (x : float) : bool := (0 <? x)%float.

(** The two summation loops of [sum]: CPython up to 3.11 adds from left
    to right; from 3.12 on it carries Neumaier's compensation term and
    adds it at the end. *)
Inductive Summation : Type :=
| Plain
| Compensated.

Fixpoint neumaier (f c : float) (xs : list float) : float :=
  match xs with
  | [] => if negb (c =? 0)%float && is_finite c then (f + c)%float else f
  | x :: xs' =>
      let t := (f + x)%float in
      let c :=
        if (abs x <=? abs f)%float
        then (c + ((f - t) + x))%float
        else (c + ((x - t) + f))%float in
      neumaier t c xs'
  end.

(** [sum(xs)]: the start value is the integer 0, which the first float is
    added to. *)
Definition py_sum (alg : Summation) (xs : list float) : float :=
  match xs with
  | [] => 0%float
  | x :: xs' =>
      match alg with
      | Plain => fold_left add xs' (0 + x)%float
      | Compensated => neumaier (0 + x)%float 0%float xs'
      end
  end.

(** [min(xs)] and [max(xs)]: the first smallest, respectively first
    largest, element; [ValueError] on an empty list. *)
Definition py_min (xs : list float) : Exc float :=
  match xs with
  | [] => Raise ValueError
  | x :: xs' =>
      Ok (fold_left (fun m y => if (y <? m)%float then y else m) xs' x)
  end.

Definition py_max (xs : list float) : Exc float :=
  match xs with
  | [] => Raise ValueError
  | x :: xs' =>
      Ok (fold_left (fun m y => if (m <? y)%float then y else m) xs' x)
  end.

(** [sorted(xs)] *)
Definition py_sorted (xs : list float) : list float :=
  stable_sort (fun y x => (y <? x)%float) xs.

(** *** The [jobs] table *)

Module Job.
Record t : Type := mk {
  id : Z;
  title : string;
  company : string;
  location : string;
  salary_min : option float;
  salary_max : option float;
  salary_text : option string;
  skills : option string;
  description : option string;
  url : option string;
  remote : option string
}.
End Job.

Definition Store : Type := list Job.t.

(** [salary_min IS NOT NULL AND salary_max IS NOT NULL] *)
Definition has_salary (j : Job.t) : bool :=
  Sql.isnot_null (Job.salary_min j) && Sql.isnot_null (Job.salary_max j).

(** [(salary_min + salary_max) / 2] in SQL, NULL as soon as a bound is. *)
Definition midpoint (j : Job.t) : option float :=
  match Job.salary_min j, Job.salary_max j with
  | Some a, Some b => Some ((a + b) / 2)%float
  | _, _ => None
  end.

(** [(job.salary_min + job.salary_max) / 2] in Python: [None] in a sum is
    a [TypeError]. *)
Definition py_midpoint (job : Job.t) : Exc float :=
  match Job.salary_min job, Job.salary_max job with
  | Some a, Some b => Ok ((a + b) / 2)%float
  | _, _ => Raise TypeError
  end.

(** *** Result dictionaries *)

Module SalaryInsights.
Record t : Type := mk {
  count : nat;
  avg_salary : Z;
  min_salary : float;
  max_salary : float;
  median_salary : float
}.
End SalaryInsights.

Module TopSkill.
Record t : Type := mk {
  skill : string;
  job_count : nat;
  avg_salary : Z;
  percentage : float
}.
End TopSkill.

Module RemoteTrend.
Record t : Type := mk {
  type : option string;
  job_count : nat;
  percentage : float;
  avg_salary : Z
}.
End RemoteTrend.

Module SkillImpact.
Record t : Type := mk {
  skill : string;
  average_salary : Z;
  market_average : Z;
  salary_difference : Z;
  percentage_increase : float
}.
End SkillImpact.

(** *** [JobAnalytics] *)

(** [get_total_jobs_count] *)
Definition get_total_jobs_count (db : Store) : nat := List.length db.

(** The query of [get_salary_insights]: the salary filter, then the two
    optional [ilike] filters, each applied only for a truthy argument. *)
Definition salary_query (db : Store) (location skill : option string)
  : list Job.t :=
  let query := filter has_salary db in
  let query :=
    match location with
    | Some l =>
        if PyStr.nonempty l
        then filter (fun j => Sql.holds (Sql.ilike (Some (Job.location j)) l))
                    query
        else query
    | None => query
    end in
  match skill with
  | Some s =>
      if PyStr.nonempty s
      then filter (fun j => Sql.holds (Sql.ilike (Job.skills j) s)) query
      else query
  | None => query
  end.

Definition get_salary_insights (alg : Summation) (db : Store)
  (location skill : option string) : Exc SalaryInsights.t :=
  let jobs := salary_query db location skill in
  match jobs with
  | [] => Ok (SalaryInsights.mk 0 0 0 0 0)
  | _ :: _ =>
      salaries <- mapM py_midpoint jobs ;;
      mean <- div_int (py_sum alg salaries)
                      (Z.of_nat (List.length salaries)) ;;
      avg_salary <- py_round mean ;;
      lo <- py_min salaries ;;
      hi <- py_max salaries ;;
      med <- py_index (py_sorted salaries)
                      (Nat.div (List.length salaries) 2) ;;
      Ok (SalaryInsights.mk (List.length jobs) avg_salary lo hi med)
  end.

(** One pass of the inner loop of [get_top_skills] for one token. *)
Definition add_skill (avg_salary : float)
  (st : list string * PyDict.t (list float)) (skill : string)
  : Exc (list string * PyDict.t (list float)) :=
  if PyStr.nonempty skill then
    let (all_skills, skill_salaries) := st in
    let skill_salaries :=
      match PyDict.get skill skill_salaries with
      | None => PyDict.set skill [] skill_salaries
      | Some _ => skill_salaries
      end in
    match PyDict.get skill skill_salaries with
    | Some l =>
        Ok (all_skills ++ [skill],
            PyDict.set skill (l ++ [avg_salary]) skill_salaries)
    | None => Raise KeyError
    end
  else Ok st.

(** One pass of the outer loop for one job. *)
Definition scan_job (st : list string * PyDict.t (list float)) (job : Job.t)
  : Exc (list string * PyDict.t (list float)) :=
  match Job.skills job with
  | Some s =>
      if PyStr.nonempty s then
        let job_skills := map PyStr.strip (PyStr.split "," s) in
        avg_salary <- py_midpoint job ;;
        foldM (add_skill avg_salary) job_skills st
      else Ok st
  | None => Ok st
  end.

(** The rows [get_top_skills] reads. *)
Definition skills_query (db : Store) : list Job.t :=
  filter (fun j => Sql.isnot_null (Job.skills j) && has_salary j) db.

(** One pass of the results loop of [get_top_skills] for one item of
    [most_common]: nothing is appended for a skill without salaries. *)
Definition report_skill (alg : Summation) (jobs : list Job.t)
  (skill_salaries : PyDict.t (list float)) (item : string * nat)
  : Exc (option TopSkill.t) :=
  let (skill, count) := item in
  match PyDict.get skill skill_salaries with
  | Some sal =>
      if (0 <? List.length sal)%nat then
        avg_salary <- div_int (py_sum alg sal) (Z.of_nat (List.length sal)) ;;
        rounded <- py_round avg_salary ;;
        share <- int_truediv (Z.of_nat count) (Z.of_nat (List.length jobs)) ;;
        Ok (Some (TopSkill.mk skill count rounded
                              (py_round1 (share * 100)%float)))
      else Ok None
  | None => Ok None
  end.

Definition get_top_skills (alg : Summation) (db : Store) (limit : Z)
  : Exc (list TopSkill.t) :=
  let jobs := skills_query db in
  st <- foldM scan_job jobs ([], []) ;;
  let (all_skills, skill_salaries) := st in
  let skill_counts := Counter all_skills in
  collectM (report_skill alg jobs skill_salaries)
           (most_common limit skill_counts).

(** [round(avg_sal) if avg_sal else 0] *)
Definition round_or_zero (avg_sal : option float) : Exc Z :=
  match avg_sal with
  | Some x => if truthy x then py_round x else Ok 0%Z
  | None => Ok 0%Z
  end.

(** One pass of the results loop of [get_remote_work_trends] for one
    group.  [sql_avg] is SQLite's [avg] over the non-null values of a
    group; how it adds them up depends on the SQLite release, and no
    property below depends on it. *)
Definition report_trend (sql_avg : list float -> option float)
  (total_jobs : nat) (g : option string * list Job.t) : Exc RemoteTrend.t :=
  let count := List.length (snd g) in
  percentage <-
    (if (0 <? total_jobs)%nat
     then share <- int_truediv (Z.of_nat count) (Z.of_nat total_jobs) ;;
          Ok (py_round1 (share * 100)%float)
     else Ok 0%float) ;;
  avg_salary <-
    round_or_zero (sql_avg (Sql.non_null (map midpoint (snd g)))) ;;
  Ok (RemoteTrend.mk (fst g) count percentage avg_salary).

Definition get_remote_work_trends (sql_avg : list float -> option float)
  (db : Store) : Exc (list RemoteTrend.t) :=
  let query := Sql.group_by Sql.opt_eqb Job.remote (filter has_salary db) in
  let total_jobs := List.length db in
  results <- mapM (report_trend sql_avg total_jobs) query ;;
  Ok (sorted_by_desc RemoteTrend.job_count results).


(** *** Vocabulary of the specification *)

(** Eligible record: both salary bounds are present. *)
Definition eligible (j : Job.t) : bool :=
  match Job.salary_min j, Job.salary_max j with
  | Some _, Some _ => true
  | _, _ => false
  end.

(** Some record lacks a salary bound. *)
Definition has_ineligible (db : Store) : bool :=
  existsb (fun j => negb (eligible j)) db.

(** The midpoint salaries of the eligible records among [jobs]. *)
Definition midpoints (jobs : list Job.t) : list float :=
  Sql.non_null (map midpoint jobs).

(** The float mean of a sample: its float sum over its length. *)
Definition mean (alg : Summation) (xs : list float) : float :=
  (py_sum alg xs / of_int (Z.of_nat (List.length xs)))%float.

(** The exact sum and the exact mean of a sample of finite floats. *)
Fixpoint exact_sum (xs : list float) : option Q :=
  match xs with
  | [] => Some 0
  | x :: xs' =>
      match exact x, exact_sum xs' with
      | Some q, Some t => Some (q + t)
      | _, _ => None
      end
  end.


(** The percentage of [c] in [n]: the float quotient, times 100, to one
    decimal. *)
Definition share (c n : nat) : float :=
  py_round1 (ratio (Z.of_nat c) (Z.of_nat n) * 100)%float.

(** The skill tokens of a record: split on commas, trimmed, empty ones
    dropped. *)
Definition tokens (j : Job.t) : list string :=
  match Job.skills j with
  | Some s => filter PyStr.nonempty (map PyStr.strip (PyStr.split "," s))
  | None => []
  end.

(** The occurrences of one record: each token with the record's midpoint
    salary. *)
Definition job_occurrences (j : Job.t) : list (string * float) :=
  match midpoint j with
  | Some m => map (fun tok => (tok, m)) (tokens j)
  | None => []
  end.

(** All occurrences, record by record, over the eligible records with a
    skills value. *)
Definition occurrences (db : Store) : list (string * float) :=
  flat_map job_occurrences
    (filter (fun j => Sql.isnot_null (Job.skills j) && eligible j) db).

(** The salary sample of a skill: one midpoint per occurrence. *)
Definition sample (skill : string) (occs : list (string * float))
  : list float :=
  map snd (filter (fun o => String.eqb (fst o) skill) occs).

(** The number of occurrences of a skill. *)
Definition occurrence_count (db : Store) (skill : string) : nat :=
  count_occ string_dec (map fst (occurrences db)) skill.

(** What a filter argument selects in a column, for an argument without
    wildcards: every value when it is absent or empty, otherwise the
    values that contain it up to the case of ASCII letters, and no
    NULL. *)
Definition selects (arg : option string) (col : option string) : bool :=
  match arg with
  | None => true
  | Some EmptyString => true
  | Some s =>
      match col with
      | Some text => contains_ci s text
      | None => false
      end
  end.

(** The argument is absent or has no LIKE wildcard. *)
Definition plain (arg : option string) : bool :=
  match arg with
  | None => true
  | Some s => wildcard_free s
  end.

(** The records a filter pair matches. *)
Definition matched (db : Store) (location skill : option string)
  : list Job.t :=
  filter (fun j => eligible j
                   && selects location (Some (Job.location j))
                   && selects skill (Job.skills j))
         db.

(** The two populations of [get_skill_salary_impact]: the eligible
    records whose skills value contains [s], and those whose skills value
    does not; a record without a skills value is in neither. *)
Definition with_skill (db : Store) (s : string) : list Job.t :=
  filter (fun j =>
            eligible j &&
            match Job.skills j with
            | Some text => contains_ci s text
            | None => false
            end)
         db.

Definition baseline (db : Store) (s : string) : list Job.t :=
  filter (fun j =>
            eligible j &&
            match Job.skills j with
            | Some text => negb (contains_ci s text)
            | None => false
            end)
         db.



(** *** Closed forms of the reported entries *)

(** The entry [get_top_skills] reports for a skill with [count]
    occurrences; rounding the mean can raise. *)
Definition skill_entry (alg : Summation) (db : Store) (item : string * nat)
  : Exc TopSkill.t :=
  rounded <- py_round (mean alg (sample (fst item) (occurrences db))) ;;
  share <- int_truediv (Z.of_nat (snd item))
                       (Z.of_nat (List.length (skills_query db))) ;;
  Ok (TopSkill.mk (fst item) (snd item) rounded
                  (py_round1 (share * 100)%float)).

(** *** Loop invariant *)

(** The state of the scanning loop of [get_top_skills] after the
    occurrences [occs]: the tokens in order, and each seen skill mapped
    to its salary sample. *)
Definition scanned (occs : list (string * float))
  (st : list string * PyDict.t (list float)) : Prop :=
  fst st = map fst occs /\
  forall s, PyDict.get s (snd st) =
            match sample s occs with
            | [] => None
            | m :: ms => Some (m :: ms)
            end.

(** *** Data sets of the scenarios *)

(** A row with the given company, location, salary bounds, skills and
    remote label, the other columns being fixed. *)
Definition job (i : Z) (co loc : string) (lo hi : option float)
  (sk rem : option string) : Job.t :=
  Job.mk i "Engineer" co loc lo hi None sk None None rem.

(** The three records of the top-skills scenario. *)
Definition three_records : Store :=
  [ job 1 "Acme" "Boston, MA" (Some 80000%float) (Some 90000%float)
        (Some "Python, SQL" % string) (Some "Remote" % string);
    job 2 "Acme" "Boston, MA" (Some 100000%float) (Some 110000%float)
        (Some "Python" % string) (Some "Hybrid" % string);
    job 3 "Initech" "Austin, TX" (Some 60000%float) (Some 70000%float)
        (Some "SQL, Java" % string) (Some "On-site" % string) ].




(** Two eligible records, one of them without a skills value. *)
Definition one_null_skills : Store :=
  [ job 1 "Acme" "Boston, MA" (Some 100%float) (Some 100%float)
        (Some "Python" % string) None;
    job 2 "Acme" "Boston, MA" (Some 100%float) (Some 100%float) None None ].


(** The remote label of the [i]-th record of [fifty_one_rows]. *)
Definition remote_label (i : nat) : string :=
  ("Zone " ++ NilZero.string_of_uint (Nat.to_uint i)) % string.

(** Fifty eligible records, each with a remote label of its own, and one
    record without salary bounds. *)
Definition fifty_one_rows : Store :=
  map (fun i => job (Z.of_nat i) "Acme" "Boston, MA"
                    (Some 100%float) (Some 100%float)
                    None (Some (remote_label i)))
      (seq 1 50)
  ++ [ job 51 "Acme" "Boston, MA" None None None (Some "Remote" % string) ].

(** SQLite's [avg] when it adds from left to right. *)
Definition plain_avg (xs : list float) : option float :=
  match xs with
  | [] => None
  | _ :: _ =>
      let a := (fold_left add xs 0 / of_int (Z.of_nat (List.length xs)))%float
      in if is_nan a then None else Some a
  end.




(** Eighty eligible records: 23 name Python, 57 name Java. *)
Definition eighty_rows : Store :=
  map (fun i => job (Z.of_nat i) "Acme" "Boston, MA"
                    (Some 100%float) (Some 100%float)
                    (Some "Python" % string) None)
      (seq 1 23)
  ++ map (fun i => job (Z.of_nat i) "Acme" "Boston, MA"
                       (Some 100%float) (Some 100%float)
                       (Some "Java" % string) None)
         (seq 24 57).

(** Eighty records: 23 eligible ones labelled Remote, 57 without salary
    bounds. *)
Definition eighty_remote : Store :=
  map (fun i => job (Z.of_nat i) "Acme" "Boston, MA"
                    (Some 100%float) (Some 100%float)
                    None (Some "Remote" % string))
      (seq 1 23)
  ++ map (fun i => job (Z.of_nat i) "Acme" "Boston, MA" None None
                       None (Some "Remote" % string))
         (seq 24 57).




End B64.

(* ================================================================== *)
(** * Part II: properties of the operations in exact arithmetic *)
(* ================================================================== *)

Unset Implicit Arguments.

(** ** Rounding *)

Lemma py_round_comp (x y : Q) : x == y -> py_round x = py_round y.
Proof.
  intros E. unfold py_round. rewrite (Qfloor_comp _ _ E).
  assert (E' : x - inject_Z (Qfloor y) == y - inject_Z (Qfloor y))
    by (rewrite E; reflexivity).
  rewrite (Qcompare_comp _ _ E' _ _ (Qeq_refl _)). reflexivity.
Qed.

Lemma py_round_mono (x y : Q) : x <= y -> (py_round x <= py_round y)%Z.
Proof.
  intros Hxy. unfold py_round.
  pose proof (Qfloor_resp_le _ _ Hxy) as Hfg.
  pose proof (Qfloor_le y) as Hy. pose proof (Qlt_floor x) as Hx.
  rewrite inject_Z_plus in Hx. change (inject_Z 1) with 1 in Hx.
  destruct (Z.eq_dec (Qfloor x) (Qfloor y)) as [E|NE].
  - rewrite <- E in *.
    destruct (Qcompare_spec (x - inject_Z (Qfloor x)) (1 # 2));
      destruct (Qcompare_spec (y - inject_Z (Qfloor x)) (1 # 2));
      destruct (Z.even (Qfloor x)); try lia; lra.
  - destruct (Qcompare (x - inject_Z (Qfloor x)) (1 # 2));
      destruct (Qcompare (y - inject_Z (Qfloor y)) (1 # 2));
      destruct (Z.even (Qfloor x)); destruct (Z.even (Qfloor y)); lia.
Qed.

(** ** Stable sorting *)

Section StableSortFacts.
Variable A : Type.
Variable before : A -> A -> bool.

Lemma insert_sorted_perm (x : A) (l : list A) :
  Permutation (insert_sorted before x l) (x :: l).
Proof.
  induction l as [|y l IH]; simpl.
  - apply Permutation_refl.
  - destruct (before y x).
    + apply perm_trans with (y :: x :: l).
      * apply perm_skip, IH.
      * apply perm_swap.
    + apply Permutation_refl.
Qed.

Lemma stable_sort_perm (l : list A) : Permutation (stable_sort before l) l.
Proof.
  induction l as [|x l IH]; simpl.
  - apply perm_nil.
  - eapply perm_trans; [apply insert_sorted_perm|].
    apply perm_skip, IH.
Qed.

Lemma stable_sort_length (l : list A) :
  List.length (stable_sort before l) = List.length l.
Proof. apply Permutation_length, stable_sort_perm. Qed.

Lemma stable_sort_In (l : list A) (x : A) :
  In x (stable_sort before l) <-> In x l.
Proof.
  split; apply Permutation_in;
    [|apply Permutation_sym]; apply stable_sort_perm.
Qed.

Hypothesis before_asym : forall x y, before x y = true -> before y x = false.

Lemma insert_sorted_Sorted (x : A) (l : list A) :
  Sorted (in_order before) l ->
  Sorted (in_order before) (insert_sorted before x l).
Proof.
  induction 1 as [|y l Hs IH Hhd]; simpl.
  - repeat constructor.
  - destruct (before y x) eqn:Byx.
    + constructor; [exact IH|].
      destruct l as [|z l]; simpl.
      * constructor. apply before_asym, Byx.
      * inversion Hhd; subst.
        destruct (before z x); constructor;
          [assumption | apply before_asym, Byx].
    + constructor; [constructor; assumption|].
      constructor. exact Byx.
Qed.

Lemma stable_sort_Sorted (l : list A) :
  Sorted (in_order before) (stable_sort before l).
Proof.
  induction l as [|x l IH]; simpl.
  - constructor.
  - apply insert_sorted_Sorted, IH.
Qed.
End StableSortFacts.

Lemma Sorted_map_on {A B : Type} (P : A -> Prop) (R : A -> A -> Prop)
  (R' : B -> B -> Prop) (f : A -> B) (l : list A) :
  (forall a b, P a -> P b -> R a b -> R' (f a) (f b)) ->
  Forall P l -> Sorted R l -> Sorted R' (map f l).
Proof.
  intros Hf HP Hs. induction Hs as [|a l Hs IH Hhd]; simpl.
  - constructor.
  - inversion HP as [|? ? Pa Pl]; subst.
    constructor; [apply IH, Pl|].
    destruct Hhd as [|b l Hab]; simpl; constructor.
    inversion Pl; subst. apply Hf; assumption.
Qed.

Lemma Qltb_lt (x y : Q) : Qltb x y = true <-> x < y.
Proof.
  unfold Qltb. destruct (Qcompare_spec x y) as [E|L|G]; split; intros H;
    try discriminate; try reflexivity; try assumption; lra.
Qed.

Lemma Qltb_ge (x y : Q) : Qltb x y = false <-> y <= x.
Proof.
  unfold Qltb. destruct (Qcompare_spec x y) as [E|L|G]; split; intros H;
    try discriminate; try reflexivity; lra.
Qed.

(** ** Exceptions and salaries *)

Lemma eligible_has_salary (j : Job.t) : Sql.has_salary j = eligible j.
Proof.
  unfold Sql.has_salary, eligible.
  destruct (Job.salary_min j), (Job.salary_max j); reflexivity.
Qed.

Lemma has_salary_midpoint (j : Job.t) :
  Sql.has_salary j = true ->
  exists m, Sql.midpoint j = Some m /\ py_midpoint j = Ok m.
Proof.
  unfold Sql.has_salary, Sql.midpoint, py_midpoint.
  destruct (Job.salary_min j) as [a|], (Job.salary_max j) as [b|];
    simpl; intros H; try discriminate.
  exists ((a + b) / 2). split; reflexivity.
Qed.

Lemma mapM_midpoint (jobs : list Job.t) :
  Forall (fun j => Sql.has_salary j = true) jobs ->
  mapM py_midpoint jobs = Ok (midpoints jobs) /\
  List.length (midpoints jobs) = List.length jobs.
Proof.
  unfold midpoints. induction 1 as [|j jobs Hj _ [IHm IHl]]; simpl.
  - split; reflexivity.
  - destruct (has_salary_midpoint j Hj) as [m [Hs Hp]].
    rewrite Hp, Hs. simpl. rewrite IHm. simpl. split; [reflexivity | lia].
Qed.

Lemma Forall_filter_true {A : Type} (f : A -> bool) (l : list A) :
  Forall (fun x => f x = true) (filter f l).
Proof. apply Forall_forall. intros x Hx. apply filter_In in Hx. tauto. Qed.





(** ** Dictionaries *)

Lemma get_set_same {V : Type} (k : string) (v : V) (d : PyDict.t V) :
  PyDict.get k (PyDict.set k v d) = Some v.
Proof.
  induction d as [|[k' v'] d IH]; simpl.
  - rewrite String.eqb_refl. reflexivity.
  - destruct (String.eqb k k') eqn:E; simpl; rewrite ?E, ?String.eqb_refl;
      [reflexivity | exact IH].
Qed.

Lemma get_set_other {V : Type} (k k0 : string) (v : V) (d : PyDict.t V) :
  k <> k0 -> PyDict.get k (PyDict.set k0 v d) = PyDict.get k d.
Proof.
  intros N. induction d as [|[k' v'] d IH]; simpl.
  - destruct (String.eqb_spec k k0); [contradiction | reflexivity].
  - destruct (String.eqb_spec k0 k') as [E|E]; simpl.
    + subst k'. destruct (String.eqb_spec k k0); [contradiction | reflexivity].
    + destruct (String.eqb k k'); [reflexivity | exact IH].
Qed.

Lemma keys_set {V : Type} (k : string) (v : V) (d : PyDict.t V) :
  map fst (PyDict.set k v d) =
  match PyDict.get k d with
  | Some _ => map fst d
  | None => map fst d ++ [k]
  end.
Proof.
  induction d as [|[k' v'] d IH]; simpl.
  - reflexivity.
  - destruct (String.eqb_spec k k') as [E|E]; simpl.
    + subst. reflexivity.
    + rewrite IH. destruct (PyDict.get k d); reflexivity.
Qed.

Lemma get_None_keys {V : Type} (k : string) (d : PyDict.t V) :
  PyDict.get k d = None <-> ~ In k (map fst d).
Proof.
  induction d as [|[k' v'] d IH]; simpl.
  - tauto.
  - destruct (String.eqb_spec k k') as [E|E].
    + subst. split; [discriminate | intros H; exfalso; apply H; now left].
    + rewrite IH. split; intros H; [intros [F|F]; [congruence|tauto] | tauto].
Qed.

Lemma get_In {V : Type} (k : string) (v : V) (d : PyDict.t V) :
  NoDup (map fst d) -> In (k, v) d -> PyDict.get k d = Some v.
Proof.
  induction d as [|[k' v'] d IH]; simpl; intros ND HI.
  - contradiction.
  - inversion ND as [|? ? Hnot ND']; subst.
    destruct HI as [E|HI].
    + inversion E; subst. rewrite String.eqb_refl. reflexivity.
    + destruct (String.eqb_spec k k') as [E|E].
      * subst. exfalso. apply Hnot. apply in_map_iff. exists (k', v). auto.
      * apply IH; assumption.
Qed.

(** ** [Counter] *)

Lemma NoDup_snoc {A : Type} (l : list A) (x : A) :
  NoDup l -> ~ In x l -> NoDup (l ++ [x]).
Proof.
  induction 1 as [|y l Hy ND IH]; simpl; intros Hx.
  - constructor; [tauto | constructor].
  - constructor.
    + rewrite in_app_iff. simpl. intros [H|[H|[]]]; [tauto | subst; tauto].
    + apply IH. tauto.
Qed.

Lemma counts_step (p : list string) (c : PyDict.t nat) (x : string) :
  counts p c ->
  counts (p ++ [x])
    (PyDict.set x (S (match PyDict.get x c with Some n => n | None => O end)) c).
Proof.
  intros [ND Hget]. split.
  - rewrite keys_set. destruct (PyDict.get x c) eqn:E; [exact ND|].
    apply NoDup_snoc; [exact ND | apply get_None_keys, E].
  - intros s. rewrite count_occ_app. simpl.
    destruct (string_dec x s) as [E|N].
    + subst s. rewrite get_set_same, Hget.
      destruct (count_occ string_dec p x) as [|n]; simpl.
      * reflexivity.
      * replace (n + 1)%nat with (S n) by lia. reflexivity.
    + rewrite get_set_other by congruence. rewrite Hget.
      rewrite Nat.add_0_r. reflexivity.
Qed.

Lemma counts_fold (xs p : list string) (c : PyDict.t nat) :
  counts p c ->
  counts (p ++ xs)
    (fold_left
       (fun c x =>
          PyDict.set x
            (S (match PyDict.get x c with Some n => n | None => O end)) c)
       xs c).
Proof.
  revert p c. induction xs as [|x xs IH]; simpl; intros p c H.
  - rewrite app_nil_r. exact H.
  - replace (p ++ x :: xs) with ((p ++ [x]) ++ xs)
      by (rewrite <- app_assoc; reflexivity).
    apply IH, counts_step, H.
Qed.

Lemma Counter_counts (xs : list string) : counts xs (Counter xs).
Proof.
  apply (counts_fold xs [] []). split; [constructor | reflexivity].
Qed.

Lemma Counter_In (xs : list string) (s : string) (n : nat) :
  In (s, n) (Counter xs) ->
  n = count_occ string_dec xs s /\ (0 < n)%nat /\ In s xs.
Proof.
  intros HI. destruct (Counter_counts xs) as [ND Hget].
  pose proof (get_In s n (Counter xs) ND HI) as G. rewrite Hget in G.
  destruct (count_occ string_dec xs s) as [|k] eqn:E; [discriminate|].
  inversion G; subst. repeat split; [lia|].
  apply (count_occ_In string_dec). lia.
Qed.

Lemma In_firstn {A : Type} (n : nat) (l : list A) (x : A) :
  In x (firstn n l) -> In x l.
Proof.
  intros H. rewrite <- (firstn_skipn n l). apply in_or_app. now left.
Qed.

Lemma most_common_In (n : Z) (c : PyDict.t nat) (item : string * nat) :
  In item (most_common n c) -> In item c.
Proof.
  unfold most_common, sorted_by_desc. intros H.
  apply In_firstn in H. apply stable_sort_In in H. exact H.
Qed.

Lemma most_common_length (n : Z) (c : PyDict.t nat) :
  (List.length (most_common n c) <= Z.to_nat n)%nat.
Proof. unfold most_common. apply firstn_le_length. Qed.

(** ** Occurrence counts *)


(** ** [get_salary_insights] *)





(** ** Grouping *)

Lemma distinct_In {K : Type} (eqb : K -> K -> bool) (ks : list K) (k : K) :
  In k (Sql.distinct eqb ks) -> In k ks.
Proof.
  induction ks as [|k0 ks IH]; simpl.
  - tauto.
  - intros [E|H]; [now left|].
    apply filter_In in H. right. apply IH. tauto.
Qed.

(** Every group of [GROUP BY] has a row, and its rows come from the
    input. *)
Lemma group_by_rows {K A : Type} (eqb : K -> K -> bool) (col : A -> K)
  (rows : list A) (g : K * list A) :
  (forall k k', eqb k k' = true <-> k = k') ->
  In g (Sql.group_by eqb col rows) ->
  snd g = filter (fun r => eqb (col r) (fst g)) rows /\
  snd g <> [] /\
  forall r, In r (snd g) -> In r rows.
Proof.
  intros Heq Hg. unfold Sql.group_by in Hg.
  apply in_map_iff in Hg. destruct Hg as [k [<- Hk]]. simpl.
  split; [reflexivity|]. split.
  - apply distinct_In, in_map_iff in Hk. destruct Hk as [r [Hr Hin]].
    intros E.
    assert (Hin' : In r (filter (fun r0 => eqb (col r0) k) rows)).
    { apply filter_In. split; [exact Hin | apply Heq, Hr]. }
    rewrite E in Hin'. contradiction.
  - intros r Hr. apply filter_In in Hr. tauto.
Qed.

Lemma string_eqb_iff (k k' : string) : String.eqb k k' = true <-> k = k'.
Proof. apply String.eqb_eq. Qed.

Lemma opt_eqb_iff (k k' : option string) : Sql.opt_eqb k k' = true <-> k = k'.
Proof.
  destruct k as [a|], k' as [b|]; simpl;
    try (split; [discriminate | intros H; discriminate H]);
    try (split; reflexivity).
  rewrite String.eqb_eq. split; [intros ->; reflexivity | congruence].
Qed.

(** The average of a non-empty group of rows with salaries is not NULL. *)
Lemma avg_group_not_null (rows : list Job.t) :
  rows <> [] ->
  Forall (fun j => Sql.has_salary j = true) rows ->
  exists x, Sql.avg (map Sql.midpoint rows) = Some x.
Proof.
  intros Hne Hall. destruct (mapM_midpoint rows Hall) as [_ Hl].
  unfold midpoints in Hl. unfold Sql.avg.
  destruct (Sql.non_null (map Sql.midpoint rows)) as [|v vs].
  - destruct rows; [contradiction | discriminate].
  - eexists. reflexivity.
Qed.

Lemma round_or_zero_Some (x : Q) : round_or_zero (Some x) = py_round x.
Proof.
  unfold round_or_zero, truthy. destruct (Qeq_bool x 0) eqn:E; simpl.
  - apply Qeq_bool_eq in E. rewrite (py_round_comp x 0 E). reflexivity.
  - reflexivity.
Qed.

Lemma sql_lt_asym (a b : option Q) : Sql.lt a b = true -> Sql.lt b a = false.
Proof.
  destruct a as [x|], b as [y|]; simpl; intros H;
    try reflexivity; try discriminate.
  apply Qltb_lt in H. apply Qltb_ge. lra.
Qed.

(** ** [get_salary_by_location] *)

(** C8.  The result of [get_salary_by_location] is non-increasing in
    [avg_salary]: each entry's value is at least the next entry's. *)
Theorem salary_by_location_sorted (db : Store) :
  Sorted (fun a b =>
            (LocationSalary.avg_salary b <= LocationSalary.avg_salary a)%Z)
         (get_salary_by_location db).
Proof.
  unfold get_salary_by_location, Sql.order_by_desc.
  set (avg_of := fun g : string * list Job.t =>
                   Sql.avg (map Sql.midpoint (snd g))).
  set (groups := Sql.group_by String.eqb Job.location
                              (filter Sql.has_salary db)).
  apply Sorted_map_on
    with (P := fun g => exists x, avg_of g = Some x)
         (R := in_order (fun y x => Sql.lt (avg_of x) (avg_of y))).
  - intros a b [x Hx] [y Hy] Hab. cbn [LocationSalary.avg_salary].
    unfold in_order in Hab. rewrite Hx, Hy in Hab. simpl in Hab.
    unfold avg_of in Hx, Hy. rewrite Hx, Hy.
    rewrite !round_or_zero_Some. apply py_round_mono, Qltb_ge, Hab.
  - apply Forall_forall. intros g Hg. apply stable_sort_In in Hg.
    destruct (group_by_rows String.eqb Job.location _ g string_eqb_iff Hg)
      as [_ [Hne Hsub]].
    apply avg_group_not_null; [exact Hne|].
    apply Forall_forall. intros j Hj. apply Hsub, filter_In in Hj. tauto.
  - apply stable_sort_Sorted. intros x y. apply sql_lt_asym.
Qed.

(** ** Groups partition the rows *)

Section GroupPartition.
Variables K A : Type.
Variable eqb : K -> K -> bool.
Variable col : A -> K.
Hypothesis eqb_iff : forall k k', eqb k k' = true <-> k = k'.

Lemma eqb_same (k : K) : eqb k k = true.
Proof. apply eqb_iff. reflexivity. Qed.

Lemma distinct_complete (ks : list K) (k : K) :
  In k ks -> In k (Sql.distinct eqb ks).
Proof.
  induction ks as [|k0 ks IH]; simpl.
  - tauto.
  - intros [E|H]; [now left|].
    destruct (eqb k k0) eqn:Ek.
    + left. symmetry. apply eqb_iff, Ek.
    + right. apply filter_In. split; [apply IH, H | rewrite Ek; reflexivity].
Qed.

Lemma distinct_NoDup (ks : list K) : NoDup (Sql.distinct eqb ks).
Proof.
  induction ks as [|k0 ks IH]; simpl.
  - constructor.
  - constructor.
    + intros H. apply filter_In in H. destruct H as [_ H].
      rewrite eqb_same in H. discriminate.
    + apply NoDup_filter, IH.
Qed.

(** Summing the sizes of the groups of distinct keys counts every row
    whose key is among them once. *)
Lemma group_sizes (ks : list K) (rows : list A) :
  NoDup ks ->
  list_sum (map (fun k => List.length (filter (fun r => eqb (col r) k) rows))
                ks)
  = List.length (filter (fun r => existsb (eqb (col r)) ks) rows).
Proof.
  induction 1 as [|k ks Hk ND IH]; simpl.
  - induction rows; simpl; [reflexivity | assumption].
  - rewrite IH. clear IH. induction rows as [|r rows IHr]; simpl.
    + reflexivity.
    + destruct (eqb (col r) k) eqn:Ek; simpl.
      * assert (Hnot : existsb (eqb (col r)) ks = false).
        { destruct (existsb (eqb (col r)) ks) eqn:Ex; [|reflexivity].
          apply existsb_exists in Ex. destruct Ex as [k' [Hin Hk']].
          apply eqb_iff in Ek, Hk'. subst. contradiction. }
        rewrite Hnot. simpl. rewrite IHr. reflexivity.
      * destruct (existsb (eqb (col r)) ks); simpl; rewrite <- IHr; lia.
Qed.

Lemma group_by_sizes (rows : list A) :
  list_sum (map (fun g => List.length (snd g)) (Sql.group_by eqb col rows))
  = List.length rows.
Proof.
  unfold Sql.group_by. rewrite map_map. simpl.
  rewrite group_sizes by apply distinct_NoDup.
  f_equal. apply forallb_filter_id. apply forallb_forall. intros r Hr.
  apply existsb_exists. exists (col r). split; [|apply eqb_same].
  apply distinct_complete, in_map, Hr.
Qed.
End GroupPartition.

Lemma filter_filter_and {A : Type} (f g : A -> bool) (l : list A) :
  filter f (filter g l) = filter (fun x => g x && f x) l.
Proof.
  induction l as [|x l IH]; simpl.
  - reflexivity.
  - destruct (g x); simpl; [destruct (f x)|]; rewrite IH; reflexivity.
Qed.

Lemma list_sum_perm (l l' : list nat) :
  Permutation l l' -> list_sum l = list_sum l'.
Proof. induction 1; simpl; lia. Qed.

(** ** [ilike] without wildcards is substring search *)

Lemma like_percent_all (text : string) : PyStr.like "%" text = true.
Proof.
  induction text as [|c text IH]; simpl.
  - reflexivity.
  - exact IH.
Qed.

Lemma like_literal (s : string) :
  wildcard_free s = true ->
  forall text, PyStr.like (s ++ "%") text = prefix_ci s text.
Proof.
  induction s as [|a s IH]; intros Hw text.
  - simpl append. rewrite like_percent_all. destruct text; reflexivity.
  - simpl in Hw. apply andb_true_iff in Hw. destruct Hw as [Hw Hs].
    apply andb_true_iff in Hw. destruct Hw as [Hp Hu].
    apply negb_true_iff in Hp, Hu.
    simpl. rewrite Hp, Hu.
    destruct text as [|c text]; [reflexivity|].
    rewrite (IH Hs). reflexivity.
Qed.

Lemma ilike_contains_ci (s : string) :
  wildcard_free s = true ->
  forall text, PyStr.ilike_contains s text = contains_ci s text.
Proof.
  intros Hw text. unfold PyStr.ilike_contains, PyStr.wrap_percent.
  induction text as [|c text IH].
  - simpl. rewrite (like_literal s Hw). simpl. rewrite orb_false_r.
    reflexivity.
  - simpl. rewrite (like_literal s Hw). simpl in IH. rewrite IH.
    reflexivity.
Qed.

(** ** [get_company_insights] *)

(** C3, evaluated on [zero_salary].  The single group has the minimum and
    maximum midpoint 0, neither of them null, and the formatted range
    would be "$0 - $0"; the result carries "N/A", because the guard tests
    the truth value of the bounds and 0 is false.  The sibling operation
    [get_salary_comparison] prints "$0 - $0" for the same record. *)
Theorem company_insights_zero_bound :
  (exists lo hi,
     Sql.min (map Sql.midpoint zero_salary) = Some lo /\
     Sql.max (map Sql.midpoint zero_salary) = Some hi /\
     lo == 0 /\ hi == 0 /\
     ("$" ++ PyFormat.format_int_comma (py_round lo) ++ " - $"
      ++ PyFormat.format_int_comma (py_round hi)) % string
     = "$0 - $0" % string) /\
  get_company_insights zero_salary 15 =
  [ CompanyInsight.mk "Acme" 1 0 "N/A" ] /\
  get_salary_comparison zero_salary [ "Boston" % string ] =
  Ok [ SalaryComparison.mk "Boston" 1 0 "$0 - $0" ].
Proof.
  split; [|split].
  - do 2 eexists. repeat split.
  - vm_compute. reflexivity.
  - vm_compute. reflexivity.
Qed.

(** ** [generate_market_summary] *)

(** C10.  On the empty store [generate_market_summary] does not raise and
    returns no jobs, average 0, the range "$0 - $0", no top skill, the
    location "N/A" and the remote percentage 0. *)
Theorem market_summary_empty_store :
  generate_market_summary [] =
  Ok (MarketSummary.mk 0 0 "$0 - $0" [] "N/A" 0).
Proof. vm_compute. reflexivity. Qed.

(* ================================================================== *)
(** * Part III: properties of the operations over binary64 floats *)
(* ================================================================== *)

(** ** Floats *)

Import PrimFloat.





Lemma b64_round_raises (x : PrimFloat.float) (e : PyError) :
  B64.py_round x = Raise e -> e = OverflowError \/ e = ValueError.
Proof.
  unfold B64.py_round. destruct (B64.exact x); [discriminate|].
  destruct (PrimFloat.is_nan x); intros H; inversion H; auto.
Qed.

Lemma b64_div_int_len (a : PrimFloat.float) (n : nat) :
  (0 < n)%nat ->
  B64.div_int a (Z.of_nat n) = Ok (PrimFloat.div a (B64.of_int (Z.of_nat n))).
Proof.
  intros H. unfold B64.div_int.
  destruct (Z.eqb_spec (Z.of_nat n) 0); [lia | reflexivity].
Qed.

Lemma b64_int_truediv_len (c n : nat) :
  (0 < n)%nat ->
  B64.int_truediv (Z.of_nat c) (Z.of_nat n)
  = Ok (B64.ratio (Z.of_nat c) (Z.of_nat n)).
Proof.
  intros H. unfold B64.int_truediv.
  destruct (Z.eqb_spec (Z.of_nat n) 0); [lia | reflexivity].
Qed.

(** ** Loops that can raise *)

Lemma mapM_Ok {A B : Type} (f : A -> Exc B) (l : list A) (r : list B) :
  mapM f l = Ok r -> Forall2 (fun a b => f a = Ok b) l r.
Proof.
  revert r. induction l as [|a l IH]; simpl; intros r H.
  - inversion H. constructor.
  - destruct (f a) as [b|e] eqn:Ea; simpl in H; [|discriminate].
    destruct (mapM f l) as [bs|e]; simpl in H; [|discriminate].
    inversion H; subst. constructor; [exact Ea | apply IH; reflexivity].
Qed.

Lemma mapM_Raise {A B : Type} (f : A -> Exc B) (l : list A) (e : PyError) :
  mapM f l = Raise e -> exists a, In a l /\ f a = Raise e.
Proof.
  induction l as [|a l IH]; simpl; intros H.
  - discriminate.
  - destruct (f a) as [b|e'] eqn:Ea; simpl in H.
    + destruct (mapM f l) as [bs|e'']; simpl in H; [discriminate|].
      inversion H; subst. destruct (IH eq_refl) as [a' [Hin Ha]].
      exists a'. split; [now right | exact Ha].
    + inversion H; subst. exists a. split; [now left | exact Ea].
Qed.

Lemma Forall2_In_r {A B : Type} (R : A -> B -> Prop) (l : list A)
  (r : list B) (b : B) :
  Forall2 R l r -> In b r -> exists a, In a l /\ R a b.
Proof.
  induction 1 as [|a0 b0 l r H0 _ IH]; simpl; intros Hin.
  - contradiction.
  - destruct Hin as [E|Hin].
    + subst. exists a0. split; [now left | exact H0].
    + destruct (IH Hin) as [a [Ha HR]]. exists a. split; [now right | exact HR].
Qed.

(** ** Salaries of the rows *)

Lemma b64_eligible_has_salary (j : B64.Job.t) :
  B64.has_salary j = B64.eligible j.
Proof.
  unfold B64.has_salary, B64.eligible.
  destruct (B64.Job.salary_min j), (B64.Job.salary_max j); reflexivity.
Qed.

Lemma b64_has_salary_midpoint (j : B64.Job.t) :
  B64.has_salary j = true ->
  exists m, B64.midpoint j = Some m /\ B64.py_midpoint j = Ok m.
Proof.
  unfold B64.has_salary, B64.midpoint, B64.py_midpoint.
  destruct (B64.Job.salary_min j) as [a|], (B64.Job.salary_max j) as [b|];
    simpl; intros H; try discriminate.
  eexists. split; reflexivity.
Qed.

Lemma b64_mapM_midpoint (jobs : list B64.Job.t) :
  Forall (fun j => B64.has_salary j = true) jobs ->
  mapM B64.py_midpoint jobs = Ok (B64.midpoints jobs) /\
  List.length (B64.midpoints jobs) = List.length jobs.
Proof.
  unfold B64.midpoints. induction 1 as [|j jobs Hj _ [IHm IHl]]; simpl.
  - split; reflexivity.
  - destruct (b64_has_salary_midpoint j Hj) as [m [Hs Hp]].
    rewrite Hp, Hs. simpl. rewrite IHm. simpl. split; [reflexivity | lia].
Qed.

(** ** The scanning loop of [get_top_skills] over floats *)

Lemma b64_sample_app (s : string) (o1 o2 : list (string * PrimFloat.float)) :
  B64.sample s (o1 ++ o2) = B64.sample s o1 ++ B64.sample s o2.
Proof. unfold B64.sample. rewrite filter_app, map_app. reflexivity. Qed.

Lemma b64_sample_In (s : string) (occs : list (string * PrimFloat.float)) :
  In s (map fst occs) -> B64.sample s occs <> [].
Proof.
  induction occs as [|[t m] occs IH]; simpl; intros H.
  - contradiction.
  - unfold B64.sample. simpl. destruct (String.eqb_spec t s) as [E|N].
    + discriminate.
    + apply IH. destruct H; [contradiction | assumption].
Qed.

Lemma b64_add_skill_scanned (m : PrimFloat.float)
  (occs : list (string * PrimFloat.float))
  (st : list string * PyDict.t (list PrimFloat.float)) (tok : string) :
  B64.scanned occs st ->
  exists st',
    B64.add_skill m st tok = Ok st' /\
    B64.scanned (occs ++ if PyStr.nonempty tok then [(tok, m)] else []) st'.
Proof.
  destruct st as [all d]. intros [Hall Hget]. simpl in Hall, Hget.
  unfold B64.add_skill. destruct (PyStr.nonempty tok).
  - assert (Hone : forall s, B64.sample s [(tok, m)] =
                             if String.eqb tok s then [m] else []).
    { intros s. unfold B64.sample. simpl.
      destruct (String.eqb tok s); reflexivity. }
    pose proof (Hget tok) as Htok.
    destruct (PyDict.get tok d) as [l|] eqn:G.
    + rewrite G. eexists. split; [reflexivity|].
      split; simpl.
      * rewrite map_app, Hall. reflexivity.
      * intros s. rewrite b64_sample_app, Hone.
        destruct (String.eqb_spec tok s) as [E|N].
        -- subst s. rewrite get_set_same.
           destruct (B64.sample tok occs) as [|m0 ms]; [discriminate|].
           inversion Htok; subst. reflexivity.
        -- rewrite get_set_other by congruence.
           rewrite app_nil_r. apply Hget.
    + rewrite get_set_same. eexists. split; [reflexivity|].
      split; simpl.
      * rewrite map_app, Hall. reflexivity.
      * intros s. rewrite b64_sample_app, Hone.
        destruct (String.eqb_spec tok s) as [E|N].
        -- subst s. rewrite get_set_same.
           destruct (B64.sample tok occs) as [|m0 ms];
             [reflexivity | discriminate].
        -- rewrite !get_set_other by congruence.
           rewrite app_nil_r. apply Hget.
  - exists (all, d). split; [reflexivity|].
    rewrite app_nil_r. split; assumption.
Qed.

Lemma b64_foldM_add_skill (m : PrimFloat.float) (toks : list string) :
  forall (occs : list (string * PrimFloat.float))
         (st : list string * PyDict.t (list PrimFloat.float)),
    B64.scanned occs st ->
    exists st',
      foldM (B64.add_skill m) toks st = Ok st' /\
      B64.scanned
        (occs ++ map (fun tok => (tok, m)) (filter PyStr.nonempty toks)) st'.
Proof.
  induction toks as [|tok toks IH]; simpl; intros occs st H.
  - exists st. rewrite app_nil_r. split; [reflexivity | exact H].
  - destruct (b64_add_skill_scanned m occs st tok H) as [st1 [E1 H1]].
    rewrite E1. simpl.
    destruct (IH _ _ H1) as [st2 [E2 H2]].
    exists st2. split; [exact E2|].
    destruct (PyStr.nonempty tok); simpl in *.
    + rewrite <- app_assoc in H2. exact H2.
    + rewrite app_nil_r in H2. exact H2.
Qed.

Lemma b64_scan_job_scanned (j : B64.Job.t)
  (occs : list (string * PrimFloat.float))
  (st : list string * PyDict.t (list PrimFloat.float)) :
  B64.has_salary j = true ->
  B64.scanned occs st ->
  exists st',
    B64.scan_job st j = Ok st' /\
    B64.scanned (occs ++ B64.job_occurrences j) st'.
Proof.
  intros Hj H. destruct (b64_has_salary_midpoint j Hj) as [m [Hs Hp]].
  unfold B64.scan_job, B64.job_occurrences, B64.tokens. rewrite Hs.
  destruct (B64.Job.skills j) as [s|].
  - destruct (PyStr.nonempty s) eqn:Ne.
    + rewrite Hp. simpl. apply b64_foldM_add_skill, H.
    + destruct s; [|discriminate]. simpl.
      exists st. rewrite app_nil_r. split; [reflexivity | exact H].
  - exists st. simpl. rewrite app_nil_r. split; [reflexivity | exact H].
Qed.

Lemma b64_foldM_scan_job (jobs : list B64.Job.t) :
  Forall (fun j => B64.has_salary j = true) jobs ->
  forall (occs : list (string * PrimFloat.float))
         (st : list string * PyDict.t (list PrimFloat.float)),
    B64.scanned occs st ->
    exists st',
      foldM B64.scan_job jobs st = Ok st' /\
      B64.scanned (occs ++ flat_map B64.job_occurrences jobs) st'.
Proof.
  induction 1 as [|j jobs Hj _ IH]; simpl; intros occs st H.
  - exists st. rewrite app_nil_r. split; [reflexivity | exact H].
  - destruct (b64_scan_job_scanned j occs st Hj H) as [st1 [E1 H1]].
    rewrite E1. simpl.
    destruct (IH _ _ H1) as [st2 [E2 H2]].
    exists st2. split; [exact E2|].
    rewrite <- app_assoc in H2. exact H2.
Qed.

Lemma b64_skills_query_has_salary (db : B64.Store) :
  Forall (fun j => B64.has_salary j = true) (B64.skills_query db).
Proof.
  apply Forall_forall. intros j Hj. apply filter_In in Hj.
  destruct Hj as [_ Hj]. apply andb_true_iff in Hj. tauto.
Qed.

Lemma b64_skills_query_eligible (db : B64.Store) :
  B64.skills_query db =
  filter (fun j => Sql.isnot_null (B64.Job.skills j) && B64.eligible j) db.
Proof.
  unfold B64.skills_query. apply filter_ext. intros j.
  rewrite b64_eligible_has_salary. reflexivity.
Qed.

(** The results loop skips no item of the counter and never divides by
    zero; it raises exactly when an entry does. *)
Lemma b64_collect_entries (alg : B64.Summation) (db : B64.Store)
  (d : PyDict.t (list PrimFloat.float)) (items : list (string * nat)) :
  B64.scanned (B64.occurrences db) (map fst (B64.occurrences db), d) ->
  (forall item, In item items ->
                In (fst item) (map fst (B64.occurrences db))) ->
  collectM (B64.report_skill alg (B64.skills_query db) d) items
  = mapM (B64.skill_entry alg db) items.
Proof.
  intros [_ Hget] Hin. simpl in Hget.
  induction items as [|[s c] items IH]; simpl.
  - reflexivity.
  - assert (Hs : In s (map fst (B64.occurrences db))).
    { apply (Hin (s, c)). now left. }
    pose proof (b64_sample_In s _ Hs) as Hne.
    rewrite Hget.
    destruct (B64.sample s (B64.occurrences db)) as [|m ms] eqn:Es;
      [congruence|].
    change (0 <? List.length (m :: ms))%nat with true. cbv iota.
    rewrite b64_div_int_len by (simpl; lia).
    rewrite IH by (intros item Hi; apply Hin; now right).
    unfold B64.skill_entry. cbn [fst snd]. rewrite Es.
    unfold B64.mean. cbn [bind].
    destruct (B64.py_round _) as [z|e]; cbn [bind]; [|reflexivity].
    destruct (B64.int_truediv _ _) as [q|e]; cbn [bind]; [|reflexivity].
    destruct (mapM (B64.skill_entry alg db) items); reflexivity.
Qed.

(** [get_top_skills] reports the entry of each of the [limit] most common
    tokens, and raises when one of these entries does. *)
Lemma b64_get_top_skills_eq (alg : B64.Summation) (db : B64.Store)
  (limit : Z) :
  B64.get_top_skills alg db limit =
  mapM (B64.skill_entry alg db)
       (most_common limit (Counter (map fst (B64.occurrences db)))).
Proof.
  unfold B64.get_top_skills.
  destruct (b64_foldM_scan_job (B64.skills_query db)
              (b64_skills_query_has_salary db) [] ([], []))
    as [[all d] [E H]].
  { split; reflexivity. }
  rewrite E. cbn [bind]. simpl app in H.
  assert (Eo : flat_map B64.job_occurrences (B64.skills_query db)
               = B64.occurrences db).
  { unfold B64.occurrences. rewrite b64_skills_query_eligible. reflexivity. }
  rewrite Eo in H.
  assert (Hall : all = map fst (B64.occurrences db)) by apply H.
  subst all. apply b64_collect_entries; [exact H|].
  intros [s c] Hi. simpl. apply most_common_In in Hi.
  apply Counter_In in Hi. tauto.
Qed.

(** ** Occurrence counts over floats *)

Lemma b64_count_sample (s : string) (occs : list (string * PrimFloat.float)) :
  count_occ string_dec (map fst occs) s = List.length (B64.sample s occs).
Proof.
  unfold B64.sample. induction occs as [|[t m] occs IH]; simpl.
  - reflexivity.
  - destruct (string_dec t s) as [E|N]; destruct (String.eqb_spec t s);
      try contradiction; simpl; rewrite IH; reflexivity.
Qed.

Lemma b64_occurrence_tokens (jobs : list B64.Job.t) :
  Forall (fun j => B64.has_salary j = true) jobs ->
  map fst (flat_map B64.job_occurrences jobs) = flat_map B64.tokens jobs.
Proof.
  induction 1 as [|j jobs Hj _ IH]; simpl.
  - reflexivity.
  - rewrite map_app, IH. f_equal.
    destruct (b64_has_salary_midpoint j Hj) as [m [Hs _]].
    unfold B64.job_occurrences. rewrite Hs, map_map. simpl. apply map_id.
Qed.



(** ** [get_top_skills] over floats *)

Lemma b64_skill_entry_Ok (alg : B64.Summation) (db : B64.Store)
  (item : string * nat) (e : B64.TopSkill.t) :
  (0 < List.length (B64.skills_query db))%nat ->
  B64.skill_entry alg db item = Ok e ->
  B64.TopSkill.skill e = fst item /\
  B64.TopSkill.job_count e = snd item /\
  B64.py_round (B64.mean alg (B64.sample (fst item) (B64.occurrences db)))
  = Ok (B64.TopSkill.avg_salary e) /\
  B64.TopSkill.percentage e
  = B64.share (snd item) (List.length (B64.skills_query db)).
Proof.
  intros Hn. unfold B64.skill_entry.
  destruct (B64.py_round _) as [z|err]; cbn [bind]; [|discriminate].
  rewrite b64_int_truediv_len by exact Hn. cbn [bind].
  intros H. inversion H; subst. repeat split.
Qed.

Lemma b64_skill_entry_Raise (alg : B64.Summation) (db : B64.Store)
  (item : string * nat) (err : PyError) :
  (0 < List.length (B64.skills_query db))%nat ->
  B64.skill_entry alg db item = Raise err ->
  B64.py_round (B64.mean alg (B64.sample (fst item) (B64.occurrences db)))
  = Raise err.
Proof.
  intros Hn. unfold B64.skill_entry.
  destruct (B64.py_round _) as [z|err']; cbn [bind].
  - rewrite b64_int_truediv_len by exact Hn. discriminate.
  - intros H. inversion H. reflexivity.
Qed.

Lemma b64_item_facts (db : B64.Store) (limit : Z) (item : string * nat) :
  In item (most_common limit (Counter (map fst (B64.occurrences db)))) ->
  snd item = B64.occurrence_count db (fst item) /\
  (0 < snd item)%nat /\
  In (fst item) (map fst (B64.occurrences db)) /\
  (0 < List.length (B64.skills_query db))%nat.
Proof.
  destruct item as [s c]. intros Hi.
  apply most_common_In, Counter_In in Hi. destruct Hi as [Hc [Hpos Hin]].
  repeat split; try assumption.
  unfold B64.occurrences in Hin. rewrite <- b64_skills_query_eligible in Hin.
  destruct (B64.skills_query db); simpl in *; [contradiction | lia].
Qed.

(** What [get_top_skills] returns, entry by entry, and when it raises:
    only when rounding the mean salary of a skill does. *)
Lemma b64_top_skills_entries (alg : B64.Summation) (db : B64.Store)
  (limit : Z) :
  let occs := B64.occurrences db in
  let rows :=
    filter (fun j => Sql.isnot_null (B64.Job.skills j) && B64.eligible j) db in
  match B64.get_top_skills alg db limit with
  | Ok r =>
      (List.length r <= Z.to_nat limit)%nat /\
      Forall
        (fun e =>
           B64.TopSkill.job_count e
           = B64.occurrence_count db (B64.TopSkill.skill e) /\
           (0 < B64.TopSkill.job_count e)%nat /\
           (0 < List.length rows)%nat /\
           B64.py_round (B64.mean alg (B64.sample (B64.TopSkill.skill e) occs))
           = Ok (B64.TopSkill.avg_salary e) /\
           B64.TopSkill.percentage e
           = B64.share (B64.TopSkill.job_count e) (List.length rows))
        r
  | Raise err =>
      exists s,
        In s (map fst occs) /\
        B64.py_round (B64.mean alg (B64.sample s occs)) = Raise err
  end.
Proof.
  intros occs rows. rewrite b64_get_top_skills_eq.
  set (items := most_common limit (Counter (map fst (B64.occurrences db)))).
  assert (Hrows : B64.skills_query db = rows)
    by apply b64_skills_query_eligible.
  destruct (mapM (B64.skill_entry alg db) items) as [r|err] eqn:E.
  - apply mapM_Ok in E. split.
    + rewrite <- (Forall2_length E). apply most_common_length.
    + apply Forall_forall. intros e He.
      destruct (Forall2_In_r _ _ _ _ E He) as [item [Hi Hentry]].
      destruct (b64_item_facts db limit item Hi) as [Hc [Hpos [_ Hn]]].
      destruct (b64_skill_entry_Ok alg db item e Hn Hentry)
        as [Hs [Hj [Ha Hp]]].
      rewrite Hs, Hj, <- Hrows. fold occs. repeat split; assumption.
  - apply mapM_Raise in E. destruct E as [item [Hi Hentry]].
    destruct (b64_item_facts db limit item Hi) as [_ [_ [Hin Hn]]].
    exists (fst item). split; [exact Hin|].
    apply b64_skill_entry_Raise; assumption.
Qed.

(** C1, as amended.  Each entry of [get_top_skills] has a percentage equal
    to the skill's occurrence count divided by the number of eligible
    records whose skills field is non-null (the rows the operation
    reads), times 100, rounded to one decimal, all in binary64.  Eligible
    records with a null skills field are not part of the denominator.
    The call raises only when rounding the mean salary of a skill
    raises. *)
Theorem top_skills_percentage_denominator (alg : B64.Summation)
  (db : B64.Store) (limit : Z) :
  let rows :=
    filter (fun j => Sql.isnot_null (B64.Job.skills j) && B64.eligible j) db in
  match B64.get_top_skills alg db limit with
  | Ok r =>
      Forall
        (fun e =>
           B64.TopSkill.job_count e
           = B64.occurrence_count db (B64.TopSkill.skill e) /\
           B64.TopSkill.percentage e
           = B64.py_round1
               (PrimFloat.mul
                  (B64.ratio
                     (Z.of_nat (B64.occurrence_count db (B64.TopSkill.skill e)))
                     (Z.of_nat (List.length rows)))
                  100%float))
        r
  | Raise err =>
      exists s,
        In s (map fst (B64.occurrences db)) /\
        B64.py_round (B64.mean alg (B64.sample s (B64.occurrences db)))
        = Raise err
  end.
Proof.
  intros rows. pose proof (b64_top_skills_entries alg db limit) as H.
  cbv zeta in H. fold rows in H.
  destruct (B64.get_top_skills alg db limit) as [r|err]; [|exact H].
  destruct H as [_ H]. eapply Forall_impl; [|exact H].
  intros e [Hc [_ [_ [_ Hp]]]]. split; [exact Hc|].
  rewrite Hp, Hc. reflexivity.
Qed.

(** C1 as stated fails in two ways.  On [one_null_skills] two records
    are eligible, one of them has no skills value, and the single
    occurrence of Python is reported as 100 percent, not as the 50
    percent that the full eligible count would give.  On [eighty_rows]
    Python has 23 occurrences over 80 rows: the float share is just below
    28.75 and is reported as 28.7, while the exact share 28.75 rounds to
    28.8. *)
Lemma top_skills_percentage_counterexample :
  List.length (filter B64.eligible B64.one_null_skills) = 2%nat /\
  Forall
    (fun alg =>
       (exists e,
          B64.get_top_skills alg B64.one_null_skills 10 = Ok [e] /\
          B64.TopSkill.skill e = "Python" % string /\
          B64.TopSkill.job_count e = 1%nat /\
          B64.TopSkill.percentage e = 100%float /\
          B64.share (B64.TopSkill.job_count e)
                    (List.length (filter B64.eligible B64.one_null_skills))
          = 50%float /\
          PrimFloat.eqb (B64.TopSkill.percentage e) 50%float = false) /\
       (exists e1 e2,
          B64.get_top_skills alg B64.eighty_rows 10 = Ok [e1; e2] /\
          B64.TopSkill.skill e2 = "Python" % string /\
          B64.TopSkill.job_count e2 = 23%nat /\
          List.length (filter B64.eligible B64.eighty_rows) = 80%nat /\
          B64.TopSkill.percentage e2 = B64.ratio 287 10 /\
          PyNum.py_round1 (of_nat 23 / of_nat 80 * 100) == 288 # 10 /\
          PrimFloat.eqb (B64.TopSkill.percentage e2) (B64.ratio 288 10)
          = false))
    [B64.Plain; B64.Compensated].
Proof.
  split; [reflexivity|].
  repeat constructor;
    (eexists; try eexists; split; [vm_compute; reflexivity|]);
    repeat split; vm_compute; reflexivity.
Qed.




(** C6.  Each entry of [get_top_skills] has a [job_count] equal to the
    number of occurrences of its skill, one per (record, trimmed
    non-empty token) mention, and an [avg_salary] equal to the rounded
    float mean of the salary sample that holds the record's midpoint once
    per occurrence; the call raises only when that rounding does.  On the
    three-record data set the result lists Python (2, 95000), SQL
    (2, 75000) and Java (1, 65000). *)
Theorem top_skills_per_occurrence (alg : B64.Summation) (db : B64.Store)
  (limit : Z) :
  match B64.get_top_skills alg db limit with
  | Ok r =>
      Forall
        (fun e =>
           let smp := B64.sample (B64.TopSkill.skill e) (B64.occurrences db) in
           B64.TopSkill.job_count e = List.length smp /\
           (0 < B64.TopSkill.job_count e)%nat /\
           B64.py_round (B64.mean alg smp) = Ok (B64.TopSkill.avg_salary e))
        r
  | Raise err =>
      exists s,
        In s (map fst (B64.occurrences db)) /\
        B64.py_round (B64.mean alg (B64.sample s (B64.occurrences db)))
        = Raise err
  end /\
  exists r3,
    B64.get_top_skills alg B64.three_records 10 = Ok r3 /\
    map (fun e => (B64.TopSkill.skill e, B64.TopSkill.job_count e,
                   B64.TopSkill.avg_salary e)) r3 =
    [ ("Python" % string, 2%nat, 95000%Z);
      ("SQL" % string, 2%nat, 75000%Z);
      ("Java" % string, 1%nat, 65000%Z) ].
Proof.
  split.
  - pose proof (b64_top_skills_entries alg db limit) as H. cbv zeta in H.
    destruct (B64.get_top_skills alg db limit) as [r|err]; [|exact H].
    destruct H as [_ H]. eapply Forall_impl; [|exact H].
    intros e [Hc [Hpos [_ [Ha _]]]]. cbv zeta.
    rewrite <- b64_count_sample. repeat split; assumption.
  - destruct alg; eexists; split; vm_compute; reflexivity.
Qed.

(** ** [get_salary_insights] over floats *)

(** Without wildcards the two [ilike] filters are substring tests: the
    query selects the eligible records whose location and skills hold
    the arguments, an absent or empty argument selecting every record. *)
Lemma b64_salary_query_matched (db : B64.Store)
  (location skill : option string) :
  B64.plain location = true ->
  B64.plain skill = true ->
  B64.salary_query db location skill = B64.matched db location skill.
Proof.
  intros Hl Hs. unfold B64.salary_query, B64.matched.
  assert (Hloc :
    (match location with
     | Some l =>
         if PyStr.nonempty l
         then filter (fun j => Sql.holds
                                 (Sql.ilike (Some (B64.Job.location j)) l))
                     (filter B64.has_salary db)
         else filter B64.has_salary db
     | None => filter B64.has_salary db
     end)
    = filter (fun j => B64.eligible j
                       && B64.selects location (Some (B64.Job.location j)))
             db).
  { destruct location as [[|a l]|]; cbn [PyStr.nonempty B64.selects].
    - apply filter_ext. intros j. rewrite b64_eligible_has_salary.
      rewrite andb_true_r. reflexivity.
    - rewrite filter_filter_and. apply filter_ext. intros j.
      rewrite b64_eligible_has_salary. f_equal.
      cbn [Sql.ilike option_map Sql.holds].
      rewrite (ilike_contains_ci _ Hl).
      destruct (contains_ci _ _); reflexivity.
    - apply filter_ext. intros j. rewrite b64_eligible_has_salary.
      rewrite andb_true_r. reflexivity. }
  rewrite Hloc. clear Hloc.
  destruct skill as [[|b s]|]; cbn [PyStr.nonempty B64.selects].
  - apply filter_ext. intros j. rewrite andb_true_r. reflexivity.
  - rewrite filter_filter_and. apply filter_ext. intros j. f_equal.
    destruct (B64.Job.skills j) as [text|];
      cbn [Sql.ilike option_map Sql.holds]; [|reflexivity].
    rewrite (ilike_contains_ci _ Hs).
    destruct (contains_ci _ _); reflexivity.
  - apply filter_ext. intros j. rewrite andb_true_r. reflexivity.
Qed.

Lemma b64_salary_query_has_salary (db : B64.Store)
  (location skill : option string) :
  Forall (fun j => B64.has_salary j = true)
         (B64.salary_query db location skill).
Proof.
  apply Forall_forall. intros j. unfold B64.salary_query.
  destruct location as [l|], skill as [s|];
    repeat match goal with
           | |- context [if ?b then _ else _] => destruct b
           end;
    intros H;
    repeat match type of H with
           | In _ (filter (fun _ => Sql.holds _) _) =>
               apply filter_In in H; destruct H as [H _]
           end;
    apply filter_In in H; tauto.
Qed.

(** The two outcomes of [get_salary_insights]: the zero dictionary on an
    empty selection; otherwise the five statistics, the call raising
    exactly when rounding the mean does. *)
Lemma b64_salary_insights_cases (alg : B64.Summation) (db : B64.Store)
  (location skill : option string) :
  let jobs := B64.salary_query db location skill in
  (jobs = [] /\ B64.midpoints jobs = [] /\
   B64.get_salary_insights alg db location skill
   = Ok (B64.SalaryInsights.mk 0 0 0%float 0%float
                               0%float))
  \/
  (exists m ms lo hi med,
      B64.midpoints jobs = m :: ms /\
      List.length (m :: ms) = List.length jobs /\
      B64.py_min (m :: ms) = Ok lo /\
      B64.py_max (m :: ms) = Ok hi /\
      nth_error (B64.py_sorted (m :: ms)) (Nat.div (List.length (m :: ms)) 2)
      = Some med /\
      B64.get_salary_insights alg db location skill =
      (avg_salary <- B64.py_round (B64.mean alg (m :: ms)) ;;
       Ok (B64.SalaryInsights.mk (List.length jobs) avg_salary lo hi med))).
Proof.
  intros jobs. unfold B64.get_salary_insights. fold jobs.
  destruct (b64_mapM_midpoint jobs
              (b64_salary_query_has_salary db location skill)) as [Hm Hl].
  destruct jobs as [|j jobs'] eqn:Ej.
  - left. repeat split; reflexivity.
  - right. rewrite Hm.
    destruct (B64.midpoints (j :: jobs')) as [|m ms] eqn:Em;
      [simpl in Hl; discriminate|].
    destruct (nth_error (B64.py_sorted (m :: ms))
                        (Nat.div (List.length (m :: ms)) 2))
      as [med|] eqn:En.
    + exists m, ms. do 3 eexists.
      split; [reflexivity|]. split; [exact Hl|].
      split; [reflexivity|]. split; [reflexivity|]. split; [exact En|].
      cbn [bind]. rewrite b64_div_int_len by (simpl; lia).
      cbn [bind]. unfold B64.mean.
      destruct (B64.py_round _) as [z|err]; cbn [bind]; [|reflexivity].
      cbn [B64.py_min B64.py_max bind]. unfold py_index. rewrite En.
      reflexivity.
    + exfalso. apply nth_error_None in En.
      unfold B64.py_sorted in En. rewrite stable_sort_length in En.
      pose proof (Nat.div_lt (List.length (m :: ms)) 2). simpl in *. lia.
Qed.




(** ** [get_remote_work_trends] over floats *)

Lemma b64_round_or_zero_raises (x : option PrimFloat.float) (err : PyError) :
  B64.round_or_zero x = Raise err -> err = OverflowError \/ err = ValueError.
Proof.
  unfold B64.round_or_zero. destruct x as [x|]; [|discriminate].
  destruct (B64.truthy x); [apply b64_round_raises | discriminate].
Qed.

Lemma b64_report_trend_Ok
  (sql_avg : list PrimFloat.float -> option PrimFloat.float)
  (total : nat) (g : option string * list B64.Job.t) (e : B64.RemoteTrend.t) :
  B64.report_trend sql_avg total g = Ok e ->
  B64.RemoteTrend.type e = fst g /\
  B64.RemoteTrend.job_count e = List.length (snd g) /\
  ((0 < total)%nat ->
   B64.RemoteTrend.percentage e = B64.share (List.length (snd g)) total).
Proof.
  unfold B64.report_trend. destruct (0 <? total)%nat eqn:Et.
  - apply Nat.ltb_lt in Et. rewrite b64_int_truediv_len by exact Et.
    cbn [bind]. destruct (B64.round_or_zero _) as [z|err]; cbn [bind];
      [|discriminate].
    intros H. inversion H; subst. repeat split.
  - apply Nat.ltb_ge in Et. cbn [bind].
    destruct (B64.round_or_zero _) as [z|err]; cbn [bind]; [|discriminate].
    intros H. inversion H; subst. repeat split. lia.
Qed.

Lemma b64_report_trend_Raise
  (sql_avg : list PrimFloat.float -> option PrimFloat.float)
  (total : nat) (g : option string * list B64.Job.t) (err : PyError) :
  B64.report_trend sql_avg total g = Raise err ->
  err = OverflowError \/ err = ValueError.
Proof.
  unfold B64.report_trend. destruct (0 <? total)%nat eqn:Et.
  - apply Nat.ltb_lt in Et. rewrite b64_int_truediv_len by exact Et.
    cbn [bind]. destruct (B64.round_or_zero _) as [z|err'] eqn:Er;
      cbn [bind]; [discriminate|].
    intros H. inversion H; subst. apply (b64_round_or_zero_raises _ _ Er).
  - cbn [bind]. destruct (B64.round_or_zero _) as [z|err'] eqn:Er;
      cbn [bind]; [discriminate|].
    intros H. inversion H; subst. apply (b64_round_or_zero_raises _ _ Er).
Qed.

Lemma Forall2_map_eq {A B C : Type} (f : A -> C) (g : B -> C)
  (l : list A) (r : list B) :
  Forall2 (fun a b => g b = f a) l r -> map g r = map f l.
Proof. induction 1; simpl; congruence. Qed.

Lemma b64_has_ineligible_count (db : B64.Store) :
  B64.has_ineligible db = true ->
  (List.length (filter B64.eligible db) < List.length db)%nat.
Proof.
  unfold B64.has_ineligible. induction db as [|j db IH]; simpl.
  - discriminate.
  - pose proof (filter_length_le B64.eligible db) as Hle.
    destruct (B64.eligible j); simpl; intros H.
    + specialize (IH H). lia.
    + lia.
Qed.

(** C7, as amended.  Each entry of [get_remote_work_trends] counts the
    eligible records of its group, and its percentage is that count
    divided by the unfiltered record count, times 100, rounded to one
    decimal, all in binary64.  The counts add up to the number of
    eligible records, which is below the record count when a record is
    ineligible.  The call raises only when rounding a group's average
    salary does. *)
Theorem remote_trends_percentage
  (sql_avg : list PrimFloat.float -> option PrimFloat.float)
  (db : B64.Store) :
  match B64.get_remote_work_trends sql_avg db with
  | Ok r =>
      Forall
        (fun e =>
           B64.RemoteTrend.job_count e =
           List.length
             (filter (fun j => B64.eligible j
                               && Sql.opt_eqb (B64.Job.remote j)
                                              (B64.RemoteTrend.type e))
                     db) /\
           B64.RemoteTrend.percentage e =
           B64.py_round1
             (PrimFloat.mul
                (B64.ratio (Z.of_nat (B64.RemoteTrend.job_count e))
                           (Z.of_nat (B64.get_total_jobs_count db)))
                100%float))
        r /\
      list_sum (map B64.RemoteTrend.job_count r)
      = List.length (filter B64.eligible db) /\
      (B64.has_ineligible db = true ->
       (list_sum (map B64.RemoteTrend.job_count r)
        < B64.get_total_jobs_count db)%nat)
  | Raise err => err = OverflowError \/ err = ValueError
  end.
Proof.
  unfold B64.get_remote_work_trends.
  set (groups := Sql.group_by Sql.opt_eqb B64.Job.remote
                              (filter B64.has_salary db)).
  destruct (mapM (B64.report_trend sql_avg (List.length db)) groups)
    as [results|err] eqn:E; cbn [bind].
  - apply mapM_Ok in E.
    assert (Hsum : list_sum (map B64.RemoteTrend.job_count
                     (sorted_by_desc B64.RemoteTrend.job_count results))
                   = List.length (filter B64.eligible db)).
    { rewrite (list_sum_perm _ (map B64.RemoteTrend.job_count results))
        by apply Permutation_map, stable_sort_perm.
      rewrite (Forall2_map_eq (fun g => List.length (snd g))
                 B64.RemoteTrend.job_count groups results).
      - unfold groups.
        rewrite (group_by_sizes _ _ Sql.opt_eqb B64.Job.remote opt_eqb_iff).
        f_equal. apply filter_ext, b64_eligible_has_salary.
      - eapply Forall2_impl; [|exact E].
        intros g e H. apply b64_report_trend_Ok in H. tauto. }
    split; [|split; [exact Hsum|]].
    + apply Forall_forall. intros e He. apply stable_sort_In in He.
      destruct (Forall2_In_r _ _ _ _ E He) as [g [Hg Hentry]].
      destruct (b64_report_trend_Ok _ _ _ _ Hentry) as [Ht [Hj Hp]].
      destruct (group_by_rows Sql.opt_eqb B64.Job.remote _ g opt_eqb_iff Hg)
        as [Hrows [Hne Hsub]].
      split.
      * rewrite Hj, Ht, Hrows, filter_filter_and. f_equal.
        apply filter_ext. intros j. rewrite b64_eligible_has_salary.
        reflexivity.
      * rewrite Hj, Hp; [reflexivity|].
        destruct (snd g) as [|j rest]; [congruence|].
        assert (Hin : In j (filter B64.has_salary db))
          by (apply Hsub; now left).
        apply filter_In in Hin.
        destruct db; [destruct Hin as [[] _] | simpl; lia].
    + intros Hin. rewrite Hsum. apply b64_has_ineligible_count, Hin.
  - apply mapM_Raise in E. destruct E as [g [_ Hg]].
    apply (b64_report_trend_Raise _ _ _ _ Hg).
Qed.

Lemma remote_trends_percentage_witness :
  exists r,
    B64.get_remote_work_trends B64.plain_avg B64.fifty_one_rows = Ok r /\
    list_sum (map B64.RemoteTrend.job_count r) = 50%nat /\
    (list_sum (map B64.RemoteTrend.job_count r) < 51)%nat.
Proof.
  pose proof (remote_trends_percentage B64.plain_avg B64.fifty_one_rows) as H.
  destruct (B64.get_remote_work_trends B64.plain_avg B64.fifty_one_rows)
    as [r|err] eqn:E.
  - exists r. destruct H as [_ [Hs Hlt]].
    split; [reflexivity|]. split; [exact Hs | exact (Hlt eq_refl)].
  - vm_compute in E. discriminate E.
Defined.

(** C7 as stated fails in two ways.  On [fifty_one_rows] one record is
    ineligible, each of the fifty groups holds one of 51 records and is
    reported as 2.0 percent, and the reported percentages add up to 100.
    On [eighty_remote] the one group holds 23 of 80 records: the float
    share is just below 28.75 and is reported as 28.7, while the exact
    share 28.75 rounds to 28.8. *)
Lemma remote_trends_sum_counterexample :
  B64.has_ineligible B64.fifty_one_rows = true /\
  (exists r,
     B64.get_remote_work_trends B64.plain_avg B64.fifty_one_rows = Ok r /\
     List.length r = 50%nat /\
     Forall (fun e => B64.RemoteTrend.percentage e = 2%float) r /\
     option_map (Qeq_bool 100)
                (B64.exact_sum (map B64.RemoteTrend.percentage r))
     = Some true /\
     option_map (fun q => Qle_bool 100 q)
                (B64.exact_sum (map B64.RemoteTrend.percentage r))
     = Some true) /\
  (exists e,
     B64.get_remote_work_trends B64.plain_avg B64.eighty_remote = Ok [e] /\
     B64.RemoteTrend.job_count e = 23%nat /\
     B64.get_total_jobs_count B64.eighty_remote = 80%nat /\
     B64.RemoteTrend.percentage e = B64.ratio 287 10 /\
     PyNum.py_round1 (of_nat 23 / of_nat 80 * 100) == 288 # 10 /\
     PrimFloat.eqb (B64.RemoteTrend.percentage e) (B64.ratio 288 10) = false).
Proof.
  split; [reflexivity|]. split.
  - eexists. split; [vm_compute; reflexivity|].
    split; [reflexivity|]. split; [|split].
    + repeat constructor.
    + vm_compute. reflexivity.
    + vm_compute. reflexivity.
  - eexists. split; [vm_compute; reflexivity|].
    repeat split; vm_compute; reflexivity.
Qed.

(** ** [get_skill_salary_impact] over floats *)

(** The rows of the "without" query are the baseline population. *)
Lemma b64_without_query_baseline (db : B64.Store) (s : string) :
  wildcard_free s = true ->
  filter (fun j => B64.has_salary j
                   && Sql.holds (Sql.not3 (Sql.ilike (B64.Job.skills j) s)))
         db
  = B64.baseline db s.
Proof.
  intros Hw. unfold B64.baseline. apply filter_ext. intros j.
  rewrite b64_eligible_has_salary. f_equal.
  destruct (B64.Job.skills j) as [text|]; simpl; [|reflexivity].
  rewrite (ilike_contains_ci s Hw). destruct (contains_ci s text); reflexivity.
Qed.

(** The rows of the "with" query are the with-skill population. *)
Lemma b64_with_query (db : B64.Store) (s : string) :
  wildcard_free s = true ->
  PyStr.nonempty s = true ->
  B64.salary_query db None (Some s) = B64.with_skill db s.
Proof.
  intros Hw Hne.
  rewrite (b64_salary_query_matched db None (Some s) eq_refl Hw).
  unfold B64.matched, B64.with_skill. apply filter_ext. intros j.
  cbn [B64.selects]. rewrite andb_true_r.
  destruct s as [|a s]; [discriminate | reflexivity].
Qed.



Lemma b64_is_pos_zero : B64.is_pos 0%float = false.
Proof. reflexivity. Qed.






(** ** Further properties: ranking, limit and coverage of [get_top_skills] *)

Lemma NoDup_map_perm {A B : Type} (f : A -> B) (l l' : list A) :
  Permutation l l' -> NoDup (map f l) -> NoDup (map f l').
Proof.
  intros Hp. apply Permutation_NoDup, Permutation_map, Hp.
Qed.

Lemma Sorted_firstn {A : Type} (R : A -> A -> Prop) (n : nat) (l : list A) :
  Sorted R l -> Sorted R (firstn n l).
Proof.
  intros Hs. revert n. induction Hs as [|a l Hs IH Hhd]; intros n.
  - rewrite firstn_nil. constructor.
  - destruct n as [|n]; simpl; [constructor|].
    constructor; [apply IH|].
    destruct Hhd as [|b l Hab]; destruct n; simpl; constructor. exact Hab.
Qed.

Lemma NoDup_firstn {A : Type} (n : nat) (l : list A) :
  NoDup l -> NoDup (firstn n l).
Proof.
  intros H. rewrite <- (firstn_skipn n l) in H.
  apply NoDup_app_remove_r in H. exact H.
Qed.

Lemma get_Some_In {V : Type} (k : string) (v : V) (d : PyDict.t V) :
  PyDict.get k d = Some v -> In (k, v) d.
Proof.
  induction d as [|[k' v'] d IH]; simpl; [discriminate|].
  destruct (String.eqb_spec k k') as [E|N]; intros H.
  - inversion H; subst. now left.
  - right. apply IH, H.
Qed.

Lemma Counter_keys_NoDup (xs : list string) : NoDup (map fst (Counter xs)).
Proof. apply Counter_counts. Qed.

Lemma Counter_complete (xs : list string) (s : string) :
  In s xs -> In s (map fst (Counter xs)).
Proof.
  intros Hin. destruct (Counter_counts xs) as [_ Hget].
  specialize (Hget s).
  apply (count_occ_In string_dec) in Hin.
  destruct (count_occ string_dec xs s) as [|n]; [lia|].
  apply get_Some_In in Hget. apply in_map_iff. exists (s, S n). auto.
Qed.

Lemma Counter_length (xs : list string) :
  (List.length (Counter xs) <= List.length xs)%nat.
Proof.
  rewrite <- (length_map fst). apply NoDup_incl_length.
  - apply Counter_keys_NoDup.
  - intros s Hs. apply in_map_iff in Hs. destruct Hs as [[k n] [<- Hi]].
    apply Counter_In in Hi. tauto.
Qed.

Lemma count_occ_filter (xs : list string) (k : string) :
  count_occ string_dec xs k
  = List.length (filter (fun x => String.eqb x k) xs).
Proof.
  induction xs as [|x xs IH]; simpl; [reflexivity|].
  destruct (string_dec x k), (String.eqb_spec x k); try contradiction;
    simpl; rewrite IH; reflexivity.
Qed.

Lemma Counter_total (xs : list string) :
  list_sum (map snd (Counter xs)) = List.length xs.
Proof.
  assert (E : map snd (Counter xs)
              = map (fun k => List.length (filter (fun x => String.eqb x k) xs))
                    (map fst (Counter xs))).
  { rewrite map_map. apply map_ext_in. intros [k n] Hi. simpl.
    apply Counter_In in Hi. destruct Hi as [-> _]. apply count_occ_filter. }
  rewrite E.
  rewrite (group_sizes string string String.eqb (fun x => x) string_eqb_iff)
    by apply Counter_keys_NoDup.
  f_equal. apply forallb_filter_id. apply forallb_forall. intros x Hx.
  apply existsb_exists. exists x. split; [|apply String.eqb_refl].
  apply Counter_complete, Hx.
Qed.

Lemma most_common_all (n : Z) (c : PyDict.t nat) :
  (Z.of_nat (List.length c) <= n)%Z ->
  most_common n c = sorted_by_desc snd c.
Proof.
  intros H. unfold most_common. apply firstn_all2.
  unfold sorted_by_desc. rewrite stable_sort_length. lia.
Qed.

(** A stable sort by falling count leaves the counts non-increasing. *)
Lemma stable_by_count_Sorted {A : Type} (k : A -> nat) (l : list A) :
  Sorted (fun a b => (k b <= k a)%nat)
         (stable_sort (fun y x => Nat.ltb (k x) (k y)) l).
Proof.
  rewrite <- (map_id (stable_sort _ l)).
  apply Sorted_map_on
    with (P := fun _ : A => True)
         (R := in_order (fun y x => Nat.ltb (k x) (k y))).
  - intros a b _ _ H. unfold in_order in H. apply Nat.ltb_ge in H. exact H.
  - apply Forall_forall. trivial.
  - apply stable_sort_Sorted. intros x y H.
    apply Nat.ltb_lt in H. apply Nat.ltb_ge. lia.
Qed.

(** An order on a key is an order on the list of keys. *)
Lemma Sorted_on_map {A : Type} (k : A -> nat) (l : list A) :
  Sorted (fun a b => (k b <= k a)%nat) l <->
  Sorted (fun x y => (y <= x)%nat) (map k l).
Proof.
  induction l as [|a l IH]; simpl.
  - split; constructor.
  - split; intros H; inversion H as [|? ? Hs Hhd]; subst;
      (constructor; [apply IH, Hs|]).
    + destruct Hhd; simpl; constructor. assumption.
    + destruct l; simpl in *; constructor. inversion Hhd; subst. assumption.
Qed.

Lemma mapM_firstn {A B : Type} (f : A -> Exc B) (k : nat) (l : list A)
  (r : list B) :
  mapM f l = Ok r -> mapM f (firstn k l) = Ok (firstn k r).
Proof.
  revert k r. induction l as [|a l IH]; intros k r H; simpl in H.
  - inversion H. rewrite !firstn_nil. reflexivity.
  - destruct (f a) as [b|e] eqn:Ea; simpl in H; [|discriminate].
    destruct (mapM f l) as [bs|e] eqn:El; simpl in H; [|discriminate].
    inversion H; subst. destruct k as [|k]; simpl; [reflexivity|].
    rewrite Ea. simpl. rewrite (IH k bs eq_refl). reflexivity.
Qed.

Lemma b64_skill_entry_fields (alg : B64.Summation) (db : B64.Store)
  (item : string * nat) (e : B64.TopSkill.t) :
  B64.skill_entry alg db item = Ok e ->
  B64.TopSkill.skill e = fst item /\ B64.TopSkill.job_count e = snd item.
Proof.
  unfold B64.skill_entry.
  destruct (B64.py_round _) as [z|err]; cbn [bind]; [|discriminate].
  destruct (B64.int_truediv _ _) as [q|err]; cbn [bind]; [|discriminate].
  intros H. inversion H; subst. split; reflexivity.
Qed.

(** The skills and counts of a returned list are those of the counter
    items it was made from. *)
Lemma b64_top_skills_items (alg : B64.Summation) (db : B64.Store)
  (limit : Z) (r : list B64.TopSkill.t) :
  B64.get_top_skills alg db limit = Ok r ->
  let items := most_common limit (Counter (map fst (B64.occurrences db))) in
  map B64.TopSkill.skill r = map fst items /\
  map B64.TopSkill.job_count r = map snd items.
Proof.
  rewrite b64_get_top_skills_eq. intros H. apply mapM_Ok in H. cbv zeta.
  split.
  - apply (Forall2_map_eq fst B64.TopSkill.skill).
    eapply Forall2_impl; [|exact H].
    intros item e He. apply b64_skill_entry_fields in He. tauto.
  - apply (Forall2_map_eq snd B64.TopSkill.job_count).
    eapply Forall2_impl; [|exact H].
    intros item e He. apply b64_skill_entry_fields in He. tauto.
Qed.

Lemma b64_occurrences_tokens (db : B64.Store) :
  map fst (B64.occurrences db)
  = flat_map B64.tokens
      (filter (fun j => Sql.isnot_null (B64.Job.skills j) && B64.eligible j)
              db).
Proof.
  unfold B64.occurrences. apply b64_occurrence_tokens.
  rewrite <- b64_skills_query_eligible. apply b64_skills_query_has_salary.
Qed.

(** X1.  The entries of [get_top_skills] are distinct skills, each a
    trimmed non-empty token of a record the operation reads, and they
    come in order of falling [job_count]. *)
Theorem top_skills_ranking (alg : B64.Summation) (db : B64.Store)
  (limit : Z) :
  match B64.get_top_skills alg db limit with
  | Ok r =>
      NoDup (map B64.TopSkill.skill r) /\
      Sorted (fun a b => (B64.TopSkill.job_count b
                          <= B64.TopSkill.job_count a)%nat) r /\
      Forall
        (fun e =>
           In (B64.TopSkill.skill e)
              (flat_map B64.tokens
                 (filter (fun j => Sql.isnot_null (B64.Job.skills j)
                                   && B64.eligible j) db)))
        r
  | Raise _ => True
  end.
Proof.
  destruct (B64.get_top_skills alg db limit) as [r|err] eqn:E; [|exact I].
  destruct (b64_top_skills_items alg db limit r E) as [Hs Hc].
  cbv zeta in Hs, Hc. split; [|split].
  - rewrite Hs. unfold most_common. rewrite <- firstn_map.
    apply NoDup_firstn.
    apply (NoDup_map_perm fst (Counter (map fst (B64.occurrences db)))).
    + apply Permutation_sym, stable_sort_perm.
    + apply Counter_keys_NoDup.
  - apply (proj2 (Sorted_on_map B64.TopSkill.job_count r)). rewrite Hc.
    apply (proj1 (Sorted_on_map snd _)).
    unfold most_common. apply Sorted_firstn.
    apply (stable_by_count_Sorted snd).
  - apply Forall_forall. intros e He.
    assert (Hin : In (B64.TopSkill.skill e) (map B64.TopSkill.skill r))
      by (apply in_map, He).
    rewrite Hs in Hin. apply in_map_iff in Hin.
    destruct Hin as [item [Hf Hi]]. rewrite <- Hf.
    rewrite <- b64_occurrences_tokens.
    apply (b64_item_facts db limit item Hi).
Qed.

(** X2.  A smaller limit gives a prefix of the result for a larger one:
    for [n <= m], when [get_top_skills] returns for the limit [m], it
    returns the first [n] of these entries for the limit [n]; a limit of
    0 or less gives the empty list. *)
Theorem top_skills_limit_prefix (alg : B64.Summation) (db : B64.Store)
  (n m : Z) (rm : list B64.TopSkill.t) :
  (n <= m)%Z ->
  B64.get_top_skills alg db m = Ok rm ->
  B64.get_top_skills alg db n = Ok (firstn (Z.to_nat n) rm).
Proof.
  intros Hnm. rewrite !b64_get_top_skills_eq. intros H.
  unfold most_common in *.
  replace (firstn (Z.to_nat n) (sorted_by_desc snd
             (Counter (map fst (B64.occurrences db)))))
    with (firstn (Z.to_nat n)
            (firstn (Z.to_nat m)
               (sorted_by_desc snd
                  (Counter (map fst (B64.occurrences db)))))).
  - apply mapM_firstn, H.
  - rewrite firstn_firstn. f_equal. lia.
Qed.

Lemma top_skills_limit_prefix_witness :
  exists rm,
    B64.get_top_skills B64.Plain B64.three_records 10 = Ok rm /\
    List.length rm = 3%nat /\
    B64.get_top_skills B64.Plain B64.three_records 1 = Ok (firstn 1 rm) /\
    B64.get_top_skills B64.Plain B64.three_records 0 = Ok [].
Proof.
  destruct (B64.get_top_skills B64.Plain B64.three_records 10)
    as [rm|err] eqn:E.
  - exists rm. split; [reflexivity|]. split.
    + vm_compute in E. inversion E. reflexivity.
    + split.
      * apply (top_skills_limit_prefix B64.Plain B64.three_records 1 10 rm);
          [lia | exact E].
      * apply (top_skills_limit_prefix B64.Plain B64.three_records 0 10 rm);
          [lia | exact E].
  - vm_compute in E. discriminate E.
Defined.

(** X3.  With a limit of at least the number of occurrences,
    [get_top_skills] leaves no skill out: every trimmed non-empty token
    of every record it reads has an entry, and the [job_count]s add up to
    the number of occurrences. *)
Theorem top_skills_coverage (alg : B64.Summation) (db : B64.Store)
  (limit : Z) (r : list B64.TopSkill.t) :
  (Z.of_nat (List.length (B64.occurrences db)) <= limit)%Z ->
  B64.get_top_skills alg db limit = Ok r ->
  Forall (fun j => Forall (fun tok => In tok (map B64.TopSkill.skill r))
                          (B64.tokens j))
         (filter (fun j => Sql.isnot_null (B64.Job.skills j) && B64.eligible j)
                 db) /\
  list_sum (map B64.TopSkill.job_count r) = List.length (B64.occurrences db).
Proof.
  intros Hlim E.
  destruct (b64_top_skills_items alg db limit r E) as [Hs Hc].
  cbv zeta in Hs, Hc.
  set (toks := map fst (B64.occurrences db)) in *.
  assert (Hall : most_common limit (Counter toks)
                 = sorted_by_desc snd (Counter toks)).
  { apply most_common_all.
    pose proof (Counter_length toks) as Hl.
    assert (Ht : List.length toks = List.length (B64.occurrences db))
      by apply length_map.
    lia. }
  rewrite Hall in Hs, Hc. split.
  - apply Forall_forall. intros j Hj. apply Forall_forall. intros tok Ht.
    rewrite Hs.
    apply (Permutation_in tok
             (Permutation_map fst
                (Permutation_sym (stable_sort_perm _ _ (Counter toks))))).
    apply Counter_complete. unfold toks. rewrite b64_occurrences_tokens.
    apply in_flat_map. exists j. split; assumption.
  - rewrite Hc.
    rewrite (list_sum_perm _ (map snd (Counter toks)))
      by (apply Permutation_map, stable_sort_perm).
    rewrite Counter_total. unfold toks. apply length_map.
Qed.

Lemma top_skills_coverage_witness :
  exists r,
    B64.get_top_skills B64.Plain B64.three_records 5 = Ok r /\
    List.length (B64.occurrences B64.three_records) = 5%nat /\
    In ("Java" % string) (map B64.TopSkill.skill r) /\
    list_sum (map B64.TopSkill.job_count r) = 5%nat.
Proof.
  destruct (B64.get_top_skills B64.Plain B64.three_records 5)
    as [r|err] eqn:E.
  - exists r. split; [reflexivity|]. split; [reflexivity|].
    destruct (top_skills_coverage B64.Plain B64.three_records 5 r
                ltac:(vm_compute; discriminate) E) as [Hcov Hsum].
    split; [|exact Hsum].
    assert (H3 : In (B64.job 3 "Initech" "Austin, TX" (Some 60000%float)
                       (Some 70000%float) (Some "SQL, Java" % string)
                       (Some "On-site" % string))
                    (filter (fun j => Sql.isnot_null (B64.Job.skills j)
                                      && B64.eligible j) B64.three_records)).
    { simpl. right. right. left. reflexivity. }
    pose proof (proj1 (Forall_forall _ _) Hcov _ H3) as Htok.
    apply (proj1 (Forall_forall _ _) Htok).
    vm_compute. right. left. reflexivity.
  - vm_compute in E. discriminate E.
Defined.

(** ** Further properties: ranking of [get_remote_work_trends] *)

Lemma group_by_keys {K A : Type} (eqb : K -> K -> bool) (col : A -> K)
  (rows : list A) :
  map fst (Sql.group_by eqb col rows) = Sql.distinct eqb (map col rows).
Proof. unfold Sql.group_by. rewrite map_map. simpl. apply map_id. Qed.

(** X4.  [get_remote_work_trends] lists each remote label of an eligible
    record once (a missing label is a group of its own), largest group
    first, and every group has at least one record. *)
Theorem remote_trends_ranking
  (sql_avg : list PrimFloat.float -> option PrimFloat.float)
  (db : B64.Store) :
  match B64.get_remote_work_trends sql_avg db with
  | Ok r =>
      NoDup (map B64.RemoteTrend.type r) /\
      Sorted (fun a b => (B64.RemoteTrend.job_count b
                          <= B64.RemoteTrend.job_count a)%nat) r /\
      Forall (fun e => (1 <= B64.RemoteTrend.job_count e)%nat) r /\
      Forall (fun j => In (B64.Job.remote j) (map B64.RemoteTrend.type r))
             (filter B64.eligible db)
  | Raise _ => True
  end.
Proof.
  unfold B64.get_remote_work_trends.
  set (groups := Sql.group_by Sql.opt_eqb B64.Job.remote
                              (filter B64.has_salary db)).
  destruct (mapM (B64.report_trend sql_avg (List.length db)) groups)
    as [results|err] eqn:E; cbn [bind]; [|exact I].
  apply mapM_Ok in E.
  assert (Ht : map B64.RemoteTrend.type results = map fst groups).
  { apply (Forall2_map_eq fst B64.RemoteTrend.type).
    eapply Forall2_impl; [|exact E].
    intros g e H. apply b64_report_trend_Ok in H. tauto. }
  assert (Hperm : Permutation results
                    (sorted_by_desc B64.RemoteTrend.job_count results))
    by apply Permutation_sym, stable_sort_perm.
  assert (Hkeys : NoDup (map B64.RemoteTrend.type results)).
  { rewrite Ht. unfold groups. rewrite group_by_keys.
    apply distinct_NoDup, opt_eqb_iff. }
  split; [|split; [|split]].
  - apply (NoDup_map_perm _ _ _ Hperm Hkeys).
  - apply (stable_by_count_Sorted B64.RemoteTrend.job_count).
  - apply Forall_forall. intros e He. apply stable_sort_In in He.
    destruct (Forall2_In_r _ _ _ _ E He) as [g [Hg Hentry]].
    destruct (b64_report_trend_Ok _ _ _ _ Hentry) as [_ [Hj _]].
    destruct (group_by_rows Sql.opt_eqb B64.Job.remote _ g opt_eqb_iff Hg)
      as [_ [Hne _]].
    rewrite Hj. destruct (snd g); [congruence | simpl; lia].
  - apply Forall_forall. intros j Hj.
    apply (Permutation_in _ (Permutation_map B64.RemoteTrend.type Hperm)).
    rewrite Ht. unfold groups. rewrite group_by_keys.
    apply distinct_complete; [apply opt_eqb_iff|].
    apply in_map. apply filter_In in Hj. apply filter_In.
    rewrite b64_eligible_has_salary. exact Hj.
Qed.

(** ** Further properties: the populations of [get_skill_salary_impact] *)

(** X5.  For a non-empty skill string without wildcards, the records the
    "with" query selects, the records the "without" query selects and the
    eligible records that have no skills value are three groups that
    together count each eligible record once. *)
Theorem skill_impact_populations (db : B64.Store) (s : string) :
  wildcard_free s = true ->
  PyStr.nonempty s = true ->
  (List.length (B64.salary_query db None (Some s))
   + List.length
       (filter (fun j => B64.has_salary j
                         && Sql.holds
                              (Sql.not3 (Sql.ilike (B64.Job.skills j) s)))
               db)
   + List.length (filter (fun j => B64.eligible j
                                   && negb (Sql.isnot_null (B64.Job.skills j)))
                         db)
   = List.length (filter B64.eligible db))%nat.
Proof.
  intros Hw Hs.
  rewrite (b64_with_query db s Hw Hs), (b64_without_query_baseline db s Hw).
  unfold B64.with_skill, B64.baseline.
  induction db as [|j db IH]; simpl; [reflexivity|].
  destruct (B64.eligible j); simpl; [|exact IH].
  destruct (B64.Job.skills j) as [text|]; simpl.
  - destruct (contains_ci s text); simpl; lia.
  - lia.
Qed.

Lemma skill_impact_populations_witness :
  (List.length (B64.salary_query B64.one_null_skills None
                                 (Some "Python" % string))
   + List.length
       (filter (fun j => B64.has_salary j
                         && Sql.holds
                              (Sql.not3 (Sql.ilike (B64.Job.skills j)
                                                   "Python")))
               B64.one_null_skills)
   + List.length (filter (fun j => B64.eligible j
                                   && negb (Sql.isnot_null (B64.Job.skills j)))
                         B64.one_null_skills)
   = 2)%nat.
Proof.
  apply (skill_impact_populations B64.one_null_skills "Python"); reflexivity.
Defined.

(** ** Further properties: the extremes of [get_salary_insights] *)

Lemma fold_pick_In {A : Type} (pick : A -> A -> bool) (xs : list A) (x : A) :
  In (fold_left (fun m y => if pick m y then y else m) xs x) (x :: xs).
Proof.
  revert x. induction xs as [|y xs IH]; intros x; simpl.
  - now left.
  - destruct (IH (if pick x y then y else x)) as [H|H].
    + destruct (pick x y); [right; left; exact H | left; exact H].
    + right. right. exact H.
Qed.

(** X6.  On a non-empty selection [get_salary_insights] reports as
    [min_salary], [max_salary] and [median_salary] midpoint salaries of
    selected records, and as [count] the number of selected records. *)
Theorem salary_insights_extremes (alg : B64.Summation) (db : B64.Store)
  (location skill : option string) :
  let jobs := B64.salary_query db location skill in
  let ms := B64.midpoints jobs in
  match B64.get_salary_insights alg db location skill with
  | Ok r =>
      B64.SalaryInsights.count r = List.length jobs /\
      match ms with
      | [] => True
      | _ :: _ =>
          In (B64.SalaryInsights.min_salary r) ms /\
          In (B64.SalaryInsights.max_salary r) ms /\
          In (B64.SalaryInsights.median_salary r) ms
      end
  | Raise _ => True
  end.
Proof.
  cbv zeta.
  destruct (b64_salary_insights_cases alg db location skill)
    as [[Ej [Em E]]|[m [ms' [lo [hi [med [Em [Hlen [Hlo [Hhi [En E]]]]]]]]]]];
    cbv zeta in *; rewrite E.
  - rewrite Em, Ej. split; [reflexivity | exact I].
  - destruct (B64.py_round (B64.mean alg (m :: ms'))) as [z|err];
      cbn [bind]; [|exact I].
    cbn [B64.SalaryInsights.count B64.SalaryInsights.min_salary
         B64.SalaryInsights.max_salary B64.SalaryInsights.median_salary].
    split; [reflexivity|]. rewrite Em. split; [|split].
    + unfold B64.py_min in Hlo. inversion Hlo; subst.
      apply (fold_pick_In (fun m0 y => PrimFloat.ltb y m0)).
    + unfold B64.py_max in Hhi. inversion Hhi; subst.
      apply (fold_pick_In (fun m0 y => PrimFloat.ltb m0 y)).
    + apply nth_error_In in En. unfold B64.py_sorted in En.
      apply (Permutation_in med (stable_sort_perm _ _ (m :: ms')) En).
Qed.
